(** * Medora clinical-summary API: a shallow embedding of [backend/main.py]

    The service is a set of FastAPI handlers over two collaborators, a
    Supabase table ([clinical_summaries]) and a Supabase storage bucket.
    The handlers are embedded as computations in a state-and-exception
    monad: the state is the world the collaborators hold (table, bucket,
    log of calls), and an exception is a Python exception object.

    Layout:
    - [PyStr]     the [str] operations the handlers use;
    - [Json]      [json.loads];
    - [PyTime]    [datetime.strptime], [datetime.fromisoformat], [isoformat];
    - [Supabase]  the table and the bucket, as far as the handlers see them;
    - [Main]      the functions of [main.py], in source order;
    - [Startup]   the module level of [main.py]: the configuration;
    - [CheckEnv]  the verdict of [check_env.py];
    - [Router]    the routes of [main.py] and how a request finds one;
    - the statements and examples the properties are about;
    - the proofs, property by property.

    Python strings are modelled by [string] (a sequence of bytes, read as the
    UTF-8 text); character classes ([isspace], digits) are the ASCII ones. *)

From Stdlib Require Import String Ascii List ZArith Lia Bool Sorted Permutation.
Import ListNotations.
Local Open Scope string_scope.
Local Open Scope Z_scope.

(** * Python strings *)

Module PyStr.

(** Truth value of a [str]: empty is false. *)
Definition truthy (s : string) : bool :=
  match s with EmptyString => false | String _ _ => true end.

(** Truth value of an [Optional[str]]: [None] and the empty string are
    false. *)
Definition truthy_opt (o : option string) : bool :=
  match o with None => false | Some s => truthy s end.

(** [str.isspace] on ASCII: tab, line feed, vertical tab, form feed,
    carriage return, the separators 28..31 and the space. *)
Definition isspace (c : ascii) : bool :=
  let n := Z.of_nat (nat_of_ascii c) in
  ((9 <=? n) && (n <=? 13)) || ((28 <=? n) && (n <=? 32)).

Fixpoint lstrip (s : string) : string :=
  match s with
  | EmptyString => EmptyString
  | String c s' => if isspace c then lstrip s' else s
  end.

Fixpoint rstrip (s : string) : string :=
  match s with
  | EmptyString => EmptyString
  | String c s' =>
      match rstrip s' with
      | EmptyString => if isspace c then EmptyString else String c EmptyString
      | r => String c r
      end
  end.

(** [s.strip()] *)
Definition strip (s : string) : string := rstrip (lstrip s).

(** [s.endswith(suffix)] *)
Fixpoint endswith (s suffix : string) : bool :=
  String.eqb s suffix ||
  match s with
  | EmptyString => false
  | String _ s' => endswith s' suffix
  end.

(** [c in s] for a one-character [c] *)
Fixpoint contains (c : ascii) (s : string) : bool :=
  match s with
  | EmptyString => false
  | String d s' => Ascii.eqb c d || contains c s'
  end.

(** [s.count(c)] for a one-character [c] *)
Fixpoint count (c : ascii) (s : string) : Z :=
  match s with
  | EmptyString => 0
  | String d s' => (if Ascii.eqb c d then 1 else 0) + count c s'
  end.

(** [s.replace(c, by)] for a one-character [c]: every occurrence. *)
Fixpoint replace (c : ascii) (by_ : string) (s : string) : string :=
  match s with
  | EmptyString => EmptyString
  | String d s' =>
      if Ascii.eqb c d then by_ ++ replace c by_ s'
      else String d (replace c by_ s')
  end.

Definition is_digit (c : ascii) : bool :=
  let n := nat_of_ascii c in (48 <=? n)%nat && (n <=? 57)%nat.

Definition digit_val (c : ascii) : Z := Z.of_nat (nat_of_ascii c) - 48.

Definition digit_char (d : Z) : ascii := ascii_of_nat (Z.to_nat (48 + d)).

(** Reads exactly [k] decimal digits. *)
Fixpoint digits (k : nat) (acc : Z) (s : string) : option (Z * string) :=
  match k with
  | O => Some (acc, s)
  | S k' =>
      match s with
      | String c s' =>
          if is_digit c then digits k' (10 * acc + digit_val c) s' else None
      | EmptyString => None
      end
  end.

(** The longest prefix of digits, and the rest. *)
Fixpoint span_digits (s : string) : string * string :=
  match s with
  | String c s' =>
      if is_digit c
      then let (d, r) := span_digits s' in (String c d, r)
      else (EmptyString, s)
  | EmptyString => (EmptyString, EmptyString)
  end.

(** The value of a string of digits. *)
Fixpoint digits_value (acc : Z) (s : string) : Z :=
  match s with
  | String c s' => digits_value (10 * acc + digit_val c) s'
  | EmptyString => acc
  end.

(** ["%0kd" % n] for [0 <= n < 10^k] *)
Fixpoint zfill (k : nat) (n : Z) : string :=
  match k with
  | O => EmptyString
  | S k' => zfill k' (n / 10) ++ String (digit_char (n mod 10)) EmptyString
  end.

End PyStr.

(** * Exceptions and the handler monad *)

(** The exception classes that reach a handler.  [JSONDecodeError] is a
    subclass of [ValueError]; [ValidationError] is pydantic's;
    [APIError] stands for whatever the Supabase clients raise;
    [RequestValidationError] is raised by FastAPI itself, before a handler
    runs, and answered with status 422. *)
Inductive exn : Type :=
| JSONDecodeError (msg : string)
| ValueError (msg : string)
| ValidationError (msg : string)
| APIError (msg : string)
| HTTPException (status_code : Z) (detail : string)
| RequestValidationError (msg : string).

(** [str(e)] *)
Definition exn_str (e : exn) : string :=
  match e with
  | JSONDecodeError m | ValueError m | ValidationError m | APIError m
  | RequestValidationError m => m
  | HTTPException _ d => d
  end.

Inductive result (A : Type) : Type :=
| Ok (a : A)
| Raise (e : exn).
Arguments Ok {A} a.
Arguments Raise {A} e.

(** The status line FastAPI answers with: the handler's [status_code] on
    return, the exception's own code for an [HTTPException], 422 for a
    request that fails the declared parameter constraints, 500 for anything
    a handler lets through. *)
Definition http_status {A} (success : Z) (r : result A) : Z :=
  match r with
  | Ok _ => success
  | Raise (HTTPException c _) => c
  | Raise (RequestValidationError _) => 422
  | Raise _ => 500
  end.

Section Monad.
Variable W : Type.

Definition M (A : Type) : Type := W -> result A * W.

Definition ret {A} (a : A) : M A := fun w => (Ok a, w).

Definition raise {A} (e : exn) : M A := fun w => (Raise e, w).

Definition bind {A B} (m : M A) (k : A -> M B) : M B :=
  fun w =>
    match m w with
    | (Ok a, w') => k a w'
    | (Raise e, w') => (Raise e, w')
    end.

(** [try: m  except ... as e: h e] where [h] re-raises what no clause
    matches. *)
Definition try_except {A} (m : M A) (h : exn -> M A) : M A :=
  fun w =>
    match m w with
    | (Ok a, w') => (Ok a, w')
    | (Raise e, w') => h e w'
    end.

(** [if c: raise e] *)
Definition raise_if (c : bool) (e : exn) : M unit :=
  if c then raise e else ret tt.

Definition lift {A} (r : result A) : M A := fun w => (r, w).

End Monad.
Arguments ret {W A} a.
Arguments raise {W A} e.
Arguments bind {W A B} m k.
Arguments try_except {W A} m h.
Arguments raise_if {W} c e.
Arguments lift {W A} r.

Declare Scope py_scope.
Delimit Scope py_scope with py.
Notation "x <- m ;; k" := (bind m (fun x => k))
  (at level 61, m at next level, right associativity) : py_scope.
Notation "m ;;; k" := (bind m (fun _ => k))
  (at level 61, right associativity) : py_scope.


(** * [json.loads] *)

Module Json.

Local Set Warnings "-register-all".

(** A decoded JSON document.  A number keeps its literal: the handlers never
    compute with one.  An object keeps its members in document order. *)
Inductive json : Type :=
| JNull
| JBool (b : bool)
| JNumber (literal : string)
| JString (s : string)
| JArray (items : list json)
| JObject (members : list (string * json)).

(** [isinstance(v, list)] *)
Definition is_list (v : json) : bool :=
  match v with JArray _ => true | _ => false end.

Definition dquote : ascii := "034"%char.
Definition backslash : ascii := "092"%char.

(** The decoder's whitespace: space, tab, line feed, carriage return. *)
Definition is_ws (c : ascii) : bool :=
  match c with
  | " "%char | "009"%char | "010"%char | "013"%char => true
  | _ => false
  end.

Fixpoint skip_ws (s : string) : string :=
  match s with
  | String c s' => if is_ws c then skip_ws s' else s
  | EmptyString => EmptyString
  end.

(** [s] without the prefix [p], when it starts with it. *)
Fixpoint strip_prefix (p s : string) : option string :=
  match p, s with
  | EmptyString, _ => Some s
  | String a p', String b s' => if Ascii.eqb a b then strip_prefix p' s' else None
  | String _ _, EmptyString => None
  end.

(** The integer part of [NUMBER_RE]: an optional minus sign, then either a
    single zero or a non-zero digit followed by any digits. *)
Definition scan_int (s : string) : option (string * string) :=
  let (sign, s1) :=
    match s with
    | String "-"%char r => ("-", r)
    | _ => (EmptyString, s)
    end in
  match s1 with
  | String "0"%char r => Some (sign ++ "0", r)
  | String c _ =>
      if PyStr.is_digit c
      then let (d, r) := PyStr.span_digits s1 in Some (sign ++ d, r)
      else None
  | EmptyString => None
  end.

(** The optional fraction [(\.[0-9]+)?]: taken only when a digit follows the
    point. *)
Definition scan_frac (s : string) : string * string :=
  match s with
  | String "."%char r =>
      match PyStr.span_digits r with
      | (EmptyString, _) => (EmptyString, s)
      | (d, r') => (String "."%char d, r')
      end
  | _ => (EmptyString, s)
  end.

(** The optional exponent [([eE][-+]?[0-9]+)?]. *)
Definition scan_exp (s : string) : string * string :=
  match s with
  | String e r =>
      if Ascii.eqb e "e"%char || Ascii.eqb e "E"%char then
        let (sg, r1) :=
          match r with
          | String "-"%char r1 => ("-", r1)
          | String "+"%char r1 => ("+", r1)
          | _ => (EmptyString, r)
          end in
        match PyStr.span_digits r1 with
        | (EmptyString, _) => (EmptyString, s)
        | (d, r2) => (String e (sg ++ d), r2)
        end
      else (EmptyString, s)
  | EmptyString => (EmptyString, s)
  end.

Definition scan_number (s : string) : option (json * string) :=
  match scan_int s with
  | Some (i, r) =>
      let (f, r1) := scan_frac r in
      let (e, r2) := scan_exp r1 in
      Some (JNumber (i ++ f ++ e), r2)
  | None => None
  end.

Definition hex_val (c : ascii) : option Z :=
  let n := Z.of_nat (nat_of_ascii c) in
  if (48 <=? n) && (n <=? 57) then Some (n - 48)
  else if (65 <=? n) && (n <=? 70) then Some (n - 55)
  else if (97 <=? n) && (n <=? 102) then Some (n - 87)
  else None.

(** The four hexadecimal digits of a [\uXXXX] escape. *)
Fixpoint hex (k : nat) (acc : Z) (s : string) : option (Z * string) :=
  match k with
  | O => Some (acc, s)
  | S k' =>
      match s with
      | String c s' =>
          match hex_val c with
          | Some v => hex k' (16 * acc + v) s'
          | None => None
          end
      | EmptyString => None
      end
  end.

Definition byte (n : Z) : ascii := ascii_of_nat (Z.to_nat n).

(** The UTF-8 bytes of a code point. *)
Definition utf8 (cp : Z) : string :=
  if cp <? 128 then String (byte cp) EmptyString
  else if cp <? 2048 then
    String (byte (192 + cp / 64)) (String (byte (128 + cp mod 64)) EmptyString)
  else if cp <? 65536 then
    String (byte (224 + cp / 4096))
      (String (byte (128 + (cp / 64) mod 64))
         (String (byte (128 + cp mod 64)) EmptyString))
  else
    String (byte (240 + cp / 262144))
      (String (byte (128 + (cp / 4096) mod 64))
         (String (byte (128 + (cp / 64) mod 64))
            (String (byte (128 + cp mod 64)) EmptyString))).

(** A [\uXXXX] escape, the [u] already read: a high surrogate followed by an
    escaped low surrogate is one code point. *)
Definition scan_unicode (s : string) : option (Z * string) :=
  match hex 4 0 s with
  | Some (u, r) =>
      if (55296 <=? u) && (u <=? 56319) then
        match r with
        | String b (String "u"%char r1) =>
            if Ascii.eqb b backslash then
              match hex 4 0 r1 with
              | Some (u2, r2) =>
                  if (56320 <=? u2) && (u2 <=? 57343)
                  then Some (65536 + (u - 55296) * 1024 + (u2 - 56320), r2)
                  else Some (u, r)
              | None => Some (u, r)
              end
            else Some (u, r)
        | _ => Some (u, r)
        end
      else Some (u, r)
  | None => None
  end.

(** The body of a string, the opening quote already read (strict mode: a
    control character is an error). *)
Fixpoint scan_string (fuel : nat) (s : string) : option (string * string) :=
  match fuel with
  | O => None
  | S f =>
      match s with
      | EmptyString => None
      | String c r =>
          if Ascii.eqb c dquote then Some (EmptyString, r)
          else if Ascii.eqb c backslash then
            match r with
            | String e r1 =>
                let simple (x : ascii) :=
                  match scan_string f r1 with
                  | Some (t, r2) => Some (String x t, r2)
                  | None => None
                  end in
                if Ascii.eqb e dquote then simple dquote
                else if Ascii.eqb e backslash then simple backslash
                else
                  match e with
                  | "/"%char => simple "/"%char
                  | "b"%char => simple "008"%char
                  | "f"%char => simple "012"%char
                  | "n"%char => simple "010"%char
                  | "r"%char => simple "013"%char
                  | "t"%char => simple "009"%char
                  | "u"%char =>
                      match scan_unicode r1 with
                      | Some (cp, r2) =>
                          match scan_string f r2 with
                          | Some (t, r3) => Some (utf8 cp ++ t, r3)
                          | None => None
                          end
                      | None => None
                      end
                  | _ => None
                  end
            | EmptyString => None
            end
          else if (nat_of_ascii c <? 32)%nat then None
          else
            match scan_string f r with
            | Some (t, r1) => Some (String c t, r1)
            | None => None
            end
      end
  end.

(** [scan_once] with [JSONArray] and [JSONObject]: a value starts at the first
    character of [s]; the rest of the document comes back with it. *)
Fixpoint value (fuel : nat) (s : string) : option (json * string) :=
  match fuel with
  | O => None
  | S f =>
      match s with
      | EmptyString => None
      | String c r =>
          if Ascii.eqb c dquote then
            match scan_string f r with
            | Some (t, r1) => Some (JString t, r1)
            | None => None
            end
          else
            match c with
            | "["%char =>
                match skip_ws r with
                | String "]"%char r1 => Some (JArray [], r1)
                | r1 =>
                    match elements f r1 with
                    | Some (vs, r2) => Some (JArray vs, r2)
                    | None => None
                    end
                end
            | "{"%char =>
                match skip_ws r with
                | String "}"%char r1 => Some (JObject [], r1)
                | r1 =>
                    match members f r1 with
                    | Some (ms, r2) => Some (JObject ms, r2)
                    | None => None
                    end
                end
            | _ =>
                match strip_prefix "null" s, strip_prefix "true" s,
                      strip_prefix "false" s with
                | Some r1, _, _ => Some (JNull, r1)
                | _, Some r1, _ => Some (JBool true, r1)
                | _, _, Some r1 => Some (JBool false, r1)
                | None, None, None =>
                    match scan_number s with
                    | Some vr => Some vr
                    | None =>
                        match strip_prefix "NaN" s, strip_prefix "Infinity" s,
                              strip_prefix "-Infinity" s with
                        | Some r1, _, _ => Some (JNumber "NaN", r1)
                        | _, Some r1, _ => Some (JNumber "Infinity", r1)
                        | _, _, Some r1 => Some (JNumber "-Infinity", r1)
                        | None, None, None => None
                        end
                    end
                end
            end
      end
  end
with elements (fuel : nat) (s : string) : option (list json * string) :=
  match fuel with
  | O => None
  | S f =>
      match value f s with
      | Some (v, r) =>
          match skip_ws r with
          | String "]"%char r1 => Some ([v], r1)
          | String ","%char r1 =>
              match elements f (skip_ws r1) with
              | Some (vs, r2) => Some (v :: vs, r2)
              | None => None
              end
          | _ => None
          end
      | None => None
      end
  end
with members (fuel : nat) (s : string) : option (list (string * json) * string) :=
  match fuel with
  | O => None
  | S f =>
      match s with
      | String q r =>
          if Ascii.eqb q dquote then
            match scan_string f r with
            | Some (k, r1) =>
                match skip_ws r1 with
                | String ":"%char r2 =>
                    match value f (skip_ws r2) with
                    | Some (v, r3) =>
                        match skip_ws r3 with
                        | String "}"%char r4 => Some ([(k, v)], r4)
                        | String ","%char r4 =>
                            match members f (skip_ws r4) with
                            | Some (ms, r5) => Some ((k, v) :: ms, r5)
                            | None => None
                            end
                        | _ => None
                        end
                    | None => None
                    end
                | _ => None
                end
            | None => None
            end
          else None
      | EmptyString => None
      end
  end.

(** [json.loads(s)]: [None] stands for [JSONDecodeError].  Whitespace may
    surround the one value; anything else after it is an error. *)
Definition loads (s : string) : option json :=
  match value (2 * String.length s + 2) (skip_ws s) with
  | Some (v, r) =>
      match skip_ws r with
      | EmptyString => Some v
      | String _ _ => None
      end
  | None => None
  end.

End Json.

Definition json_ab : string :=
  "[" ++ String Json.dquote "A" ++ String Json.dquote "," ++
  String Json.dquote "B" ++ String Json.dquote "]".

(** * [datetime] *)

Module PyTime.

(** A [date]. *)
Record date : Type := mkdate { d_year : Z; d_month : Z; d_day : Z }.

(** A [datetime]; [tzinfo] is the UTC offset in microseconds, [None] for a
    naive value. *)
Record datetime : Type := mkdatetime {
  year : Z; month : Z; day : Z;
  hour : Z; minute : Z; second : Z; microsecond : Z;
  tzinfo : option Z
}.

Definition is_leap (y : Z) : bool :=
  (y mod 4 =? 0) && (negb (y mod 100 =? 0) || (y mod 400 =? 0)).

Definition days_in_month (y m : Z) : Z :=
  match m with
  | 1 | 3 | 5 | 7 | 8 | 10 | 12 => 31
  | 4 | 6 | 9 | 11 => 30
  | 2 => if is_leap y then 29 else 28
  | _ => 0
  end.

(** The checks of the [date] constructor: [MINYEAR <= year <= MAXYEAR],
    a month, a day of that month. *)
Definition valid_date (y m d : Z) : bool :=
  (1 <=? y) && (y <=? 9999) && (1 <=? m) && (m <=? 12) &&
  (1 <=? d) && (d <=? days_in_month y m).

Definition days_before_year (y : Z) : Z :=
  let p := y - 1 in p * 365 + p / 4 - p / 100 + p / 400.

Definition days_before_month (y m : Z) : Z :=
  match m with
  | 1 => 0 | 2 => 31 | 3 => 59 | 4 => 90 | 5 => 120 | 6 => 151
  | 7 => 181 | 8 => 212 | 9 => 243 | 10 => 273 | 11 => 304 | _ => 334
  end + (if (2 <? m) && is_leap y then 1 else 0).

(** [date.toordinal]: day 1 is 0001-01-01. *)
Definition ymd2ord (y m d : Z) : Z :=
  days_before_year y + days_before_month y m + d.


(** [datetime.min.time()] and [datetime.max.time()] *)
Definition min_time : Z * Z * Z * Z := (0, 0, 0, 0).
Definition max_time : Z * Z * Z * Z := (23, 59, 59, 999999).

(** [datetime.combine(d, t)] for a naive [t] *)
Definition combine (d : date) (t : Z * Z * Z * Z) : datetime :=
  let '(h, mi, s, us) := t in
  mkdatetime (d_year d) (d_month d) (d_day d) h mi s us None.

(** The month field of [%m], with the [-] that follows it in the format:
    [1[0-2]], [0[1-9]] or [[1-9]]. *)
Definition month_field (s : string) : option (Z * string) :=
  match s with
  | String a r =>
      let va := PyStr.digit_val a in
      let two :=
        match r with
        | String b (String "-"%char r') =>
            let vb := PyStr.digit_val b in
            if PyStr.is_digit a && PyStr.is_digit b &&
               (((va =? 1) && (vb <=? 2)) || ((va =? 0) && (1 <=? vb)))
            then Some (10 * va + vb, r')
            else None
        | _ => None
        end in
      match two with
      | Some x => Some x
      | None =>
          match r with
          | String "-"%char r' =>
              if PyStr.is_digit a && (1 <=? va) then Some (va, r') else None
          | _ => None
          end
      end
  | EmptyString => None
  end.

(** The day field of [%d], which ends the format: [3[0-1]], [[1-2]\d],
    [0[1-9]], [[1-9]] or a space and [[1-9]]. *)
Definition day_field (s : string) : option Z :=
  match s with
  | String a EmptyString =>
      if PyStr.is_digit a && (1 <=? PyStr.digit_val a)
      then Some (PyStr.digit_val a) else None
  | String a (String b EmptyString) =>
      let va := PyStr.digit_val a in
      let vb := PyStr.digit_val b in
      if PyStr.is_digit b then
        if PyStr.is_digit a then
          if ((va =? 3) && (vb <=? 1)) || (va =? 1) || (va =? 2) ||
             ((va =? 0) && (1 <=? vb))
          then Some (10 * va + vb) else None
        else if Ascii.eqb a " "%char && (1 <=? vb) then Some vb else None
      else None
  | _ => None
  end.

(** [datetime.strptime(s, "%Y-%m-%d").date()]; [None] stands for
    [ValueError]. *)
Definition strptime_ymd (s : string) : option date :=
  match PyStr.digits 4 0 s with
  | Some (y, String "-"%char r) =>
      match month_field r with
      | Some (m, r') =>
          match day_field r' with
          | Some d => if valid_date y m d then Some (mkdate y m d) else None
          | None => None
          end
      | None => None
      end
  | _ => None
  end.

(** The offset as [isoformat] prints it: [+HH:MM], with [:SS] and [.ffffff]
    when they are not zero. *)
Definition format_offset (off : Z) : string :=
  let a := Z.abs off in
  let us := a mod 1000000 in
  let s := (a / 1000000) mod 60 in
  let m := (a / 60000000) mod 60 in
  let h := a / 3600000000 in
  (if off <? 0 then "-" else "+") ++ PyStr.zfill 2 h ++ ":" ++ PyStr.zfill 2 m ++
  (if (s =? 0) && (us =? 0) then EmptyString
   else ":" ++ PyStr.zfill 2 s ++
        (if us =? 0 then EmptyString else "." ++ PyStr.zfill 6 us)).

(** [t.isoformat()] *)
Definition isoformat (t : datetime) : string :=
  PyStr.zfill 4 (year t) ++ "-" ++ PyStr.zfill 2 (month t) ++ "-" ++
  PyStr.zfill 2 (day t) ++ "T" ++ PyStr.zfill 2 (hour t) ++ ":" ++
  PyStr.zfill 2 (minute t) ++ ":" ++ PyStr.zfill 2 (second t) ++
  (if microsecond t =? 0 then EmptyString
   else "." ++ PyStr.zfill 6 (microsecond t)) ++
  match tzinfo t with
  | None => EmptyString
  | Some off => format_offset off
  end.

(** [HH[:MM[:SS[.fff[fff]]]]], the whole of [s]. *)
Definition hh_mm_ss_ff (s : string) : option (Z * Z * Z * Z) :=
  match PyStr.digits 2 0 s with
  | Some (h, EmptyString) => Some (h, 0, 0, 0)
  | Some (h, String ":"%char r) =>
      match PyStr.digits 2 0 r with
      | Some (mi, EmptyString) => Some (h, mi, 0, 0)
      | Some (mi, String ":"%char r1) =>
          match PyStr.digits 2 0 r1 with
          | Some (sec, EmptyString) => Some (h, mi, sec, 0)
          | Some (sec, String "."%char r2) =>
              match PyStr.digits 3 0 r2 with
              | Some (ms, EmptyString) => Some (h, mi, sec, ms * 1000)
              | Some (ms, r3) =>
                  match PyStr.digits 3 0 r3 with
                  | Some (us, EmptyString) => Some (h, mi, sec, ms * 1000 + us)
                  | _ => None
                  end
              | None => None
              end
          | _ => None
          end
      | _ => None
      end
  | _ => None
  end.

(** Splits a time string at its first [+] or [-]: the time, and the sign
    with the zone string when there is one. *)
Fixpoint split_zone (s : string) : string * option (ascii * string) :=
  match s with
  | EmptyString => (EmptyString, None)
  | String c r =>
      if Ascii.eqb c "+"%char || Ascii.eqb c "-"%char then (EmptyString, Some (c, r))
      else let (t, z) := split_zone r in (String c t, z)
  end.

(** The zone of an ISO string, sign apart: [HH:MM], [HH:MM:SS] or
    [HH:MM:SS.ffffff], within a day either way. *)
Definition zone_offset (sign : ascii) (z : string) : option Z :=
  let n := String.length z in
  if Nat.eqb n 5 || Nat.eqb n 8 || Nat.eqb n 15 then
    match hh_mm_ss_ff z with
    | Some (h, mi, s, us) =>
        let off := ((h * 60 + mi) * 60 + s) * 1000000 + us in
        if off <? 86400000000
        then Some (if Ascii.eqb sign "-"%char then - off else off)
        else None
    | None => None
    end
  else None.

(** The time of an ISO string with its optional zone. *)
Definition isoformat_time (s : string) : option (Z * Z * Z * Z * option Z) :=
  let (t, z) := split_zone s in
  match hh_mm_ss_ff t with
  | Some (h, mi, sec, us) =>
      if (h <? 24) && (mi <? 60) && (sec <? 60) then
        match z with
        | None => Some (h, mi, sec, us, None)
        | Some (sign, zs) =>
            match zone_offset sign zs with
            | Some off => Some (h, mi, sec, us, Some off)
            | None => None
            end
        end
      else None
  | None => None
  end.

(** [datetime.fromisoformat(s)] for the format of [isoformat]:
    [YYYY-MM-DD[*HH[:MM[:SS[.fff[fff]]]][+HH:MM[:SS[.ffffff]]]]], where [*]
    is any one character.  [None] stands for [ValueError]. *)
Definition fromisoformat (s : string) : option datetime :=
  match PyStr.digits 4 0 s with
  | Some (y, String "-"%char r) =>
      match PyStr.digits 2 0 r with
      | Some (m, String "-"%char r1) =>
          match PyStr.digits 2 0 r1 with
          | Some (d, rest) =>
              if valid_date y m d then
                match rest with
                | EmptyString => Some (mkdatetime y m d 0 0 0 0 None)
                | String _ t =>
                    match isoformat_time t with
                    | Some (h, mi, sec, us, tz) =>
                        Some (mkdatetime y m d h mi sec us tz)
                    | None => None
                    end
                end
              else None
          | None => None
          end
      | _ => None
      end
  | _ => None
  end.

End PyTime.

(** * The collaborators: the Supabase table and bucket *)

Module Supabase.

(** A row of [clinical_summaries], as the client hands it to the handlers
    (a dict keyed by column).  [r_diagnoses] is a JSONB value;
    [r_created_at] is the text the datastore renders its timestamp with. *)
Record row : Type := mkrow {
  r_summary_id : string;
  r_patient_id : string;
  r_patient_name : string;
  r_summary_text : string;
  r_diagnoses : Json.json;
  r_affected_system : option string;
  r_affected_organ : option string;
  r_animation_asset : option string;
  r_raw_notes_type : string;
  r_raw_notes_text : option string;
  r_raw_notes_file_url : option string;
  r_created_at : string
}.

(** The columns an insert supplies ([summary_data] in [create_summary]);
    [summary_id] and [created_at] are the datastore's. *)
Record columns : Type := mkcolumns {
  c_patient_id : string;
  c_patient_name : string;
  c_summary_text : string;
  c_diagnoses : Json.json;
  c_affected_system : option string;
  c_affected_organ : option string;
  c_animation_asset : option string;
  c_raw_notes_type : string;
  c_raw_notes_text : option string;
  c_raw_notes_file_url : option string
}.

(** A call that reaches a collaborator over the network. *)
Inductive call : Type :=
| StorageUpload (key : string)
| TableInsert
| TableSelect.

(** What the collaborators hold, and the calls made so far (latest first). *)
Record world : Type := mkworld {
  table : list row;
  bucket : list (string * string);
  calls : list call
}.

(** What one request cannot decide by itself: the configuration read from
    the environment, the value of [uuid.uuid4()], whether a collaborator
    fails, the key and the timestamp the datastore generates, and whether an
    insert returns the stored row. *)
Record env : Type := mkenv {
  SUPABASE_URL : string;
  SUPABASE_STORAGE_BUCKET : string;
  uuid4 : string;
  storage_fault : option string;
  table_fault : option string;
  generated_id : string;
  now : string;
  returning : bool
}.

Definition log (c : call) : M world unit :=
  fun w => (Ok tt, mkworld (table w) (bucket w) (c :: calls w)).

Definition has_key (key : string) (b : list (string * string)) : bool :=
  existsb (fun kv => String.eqb (fst kv) key) b.

(** [storage.from_(bucket).upload(key, content)]: an object that exists is
    not overwritten. *)
Definition upload (e : env) (key content : string) : M world unit :=
  (log (StorageUpload key) ;;;
   match storage_fault e with
   | Some msg => raise (APIError msg)
   | None =>
       fun w =>
         if has_key key (bucket w)
         then (Raise (APIError "The resource already exists"), w)
         else (Ok tt, mkworld (table w) ((key, content) :: bucket w) (calls w))
   end)%py.

(** [storage.from_(bucket).get_public_url(key)]: computed by the client. *)
Definition get_public_url (e : env) (key : string) : string :=
  SUPABASE_URL e ++ "/storage/v1/object/public/" ++
  SUPABASE_STORAGE_BUCKET e ++ "/" ++ key.

Definition stored (e : env) (c : columns) : row :=
  mkrow (generated_id e) (c_patient_id c) (c_patient_name c)
    (c_summary_text c) (c_diagnoses c) (c_affected_system c)
    (c_affected_organ c) (c_animation_asset c) (c_raw_notes_type c)
    (c_raw_notes_text c) (c_raw_notes_file_url c) (now e).

Definition has_id (id : string) (t : list row) : bool :=
  existsb (fun r => String.eqb (r_summary_id r) id) t.

(** [table("clinical_summaries").insert(data).execute()]: [summary_id] is the
    primary key; the answer is the stored row, or nothing. *)
Definition insert (e : env) (c : columns) : M world (list row) :=
  (log TableInsert ;;;
   match table_fault e with
   | Some msg => raise (APIError msg)
   | None =>
       fun w =>
         if has_id (generated_id e) (table w)
         then (Raise (APIError "duplicate key value violates unique constraint"), w)
         else
           let r := stored e c in
           (Ok (if returning e then [r] else []),
            mkworld (table w ++ [r]) (bucket w) (calls w))
   end)%py.

(** The fraction of a second, [.d] to [.dddddd], in microseconds. *)
Definition fraction (s : string) : option (Z * string) :=
  match s with
  | String "."%char r =>
      let (d, r') := PyStr.span_digits r in
      let n := String.length d in
      if (1 <=? n)%nat && (n <=? 6)%nat
      then Some (PyStr.digits_value 0 d * 10 ^ Z.of_nat (6 - n), r')
      else None
  | _ => Some (0, s)
  end.

(** The zone of a timestamp: none (the session's, UTC), [Z], or a signed
    [HH] or [HH:MM].  In microseconds. *)
Definition zone (s : string) : option Z :=
  match s with
  | EmptyString => Some 0
  | String c r =>
      if Ascii.eqb c "Z"%char then
        match r with EmptyString => Some 0 | _ => None end
      else if Ascii.eqb c "+"%char || Ascii.eqb c "-"%char then
        let sg := if Ascii.eqb c "-"%char then -1 else 1 in
        match PyStr.digits 2 0 r with
        | Some (h, EmptyString) => Some (sg * h * 3600000000)
        | Some (h, String ":"%char r1) =>
            match PyStr.digits 2 0 r1 with
            | Some (m, EmptyString) => Some (sg * (h * 60 + m) * 60000000)
            | _ => None
            end
        | _ => None
        end
      else None
  end.

(** The time of day [HH:MM[:SS[.f]]] with its zone, in microseconds from the
    midnight (UTC) that starts the date. *)
Definition time_of_day (t : string) : option Z :=
  match PyStr.digits 2 0 t with
  | Some (h, String ":"%char t1) =>
      match PyStr.digits 2 0 t1 with
      | Some (mi, String ":"%char t2) =>
          match PyStr.digits 2 0 t2 with
          | Some (sec, t3) =>
              match fraction t3 with
              | Some (us, t4) =>
                  match zone t4 with
                  | Some off =>
                      if (h <? 24) && (mi <? 60) && (sec <? 60)
                      then Some (((h * 60 + mi) * 60 + sec) * 1000000 + us - off)
                      else None
                  | None => None
                  end
              | None => None
              end
          | None => None
          end
      | Some (mi, t2) =>
          match zone t2 with
          | Some off =>
              if (h <? 24) && (mi <? 60)
              then Some ((h * 60 + mi) * 60000000 - off)
              else None
          | None => None
          end
      | None => None
      end
  | _ => None
  end.

(** The instant a [timestamptz] text denotes (ISO 8601 input: [YYYY-MM-DD],
    then [T] or a space and the time of day with its zone), on the scale of
    [PyTime.utc_micros]. *)
Definition timestamptz_in (s : string) : option Z :=
  match PyStr.digits 4 0 s with
  | Some (y, String "-"%char r) =>
      match PyStr.digits 2 0 r with
      | Some (m, String "-"%char r1) =>
          match PyStr.digits 2 0 r1 with
          | Some (d, rest) =>
              if PyTime.valid_date y m d then
                let day0 := PyTime.ymd2ord y m d * 86400000000 in
                match rest with
                | EmptyString => Some day0
                | String sep t =>
                    if Ascii.eqb sep "T"%char || Ascii.eqb sep " "%char then
                      match time_of_day t with
                      | Some x => Some (day0 + x)
                      | None => None
                      end
                    else None
                end
              else None
          | None => None
          end
      | _ => None
      end
  | _ => None
  end.

(** The filters the handlers put on a query. *)
Inductive filter_op : Type :=
| Eq (column value : string)
| Gte (column value : string)
| Lte (column value : string).

(** A query as the builder accumulates it:
    [select(...).eq(...).gte(...).order("created_at", desc=True).limit(n)].
    The rows come back whole; a handler reads the columns it selected. *)
Record query : Type := mkquery {
  selected : string;
  filters : list filter_op;
  order_created_at_desc : bool;
  limit : option Z
}.

Definition instant (r : row) : option Z := timestamptz_in (r_created_at r).

(** One filter over the rows; [None] when the server rejects it (a column the
    handlers never name, a bound that is no timestamp). *)
Definition apply_filter (f : filter_op) (rows : list row) : option (list row) :=
  match f with
  | Eq "patient_id" v =>
      Some (filter (fun r => String.eqb (r_patient_id r) v) rows)
  | Eq "summary_id" v =>
      Some (filter (fun r => String.eqb (r_summary_id r) v) rows)
  | Gte "created_at" v =>
      match timestamptz_in v with
      | Some b =>
          Some (filter (fun r => match instant r with
                                 | Some t => b <=? t
                                 | None => false
                                 end) rows)
      | None => None
      end
  | Lte "created_at" v =>
      match timestamptz_in v with
      | Some b =>
          Some (filter (fun r => match instant r with
                                 | Some t => t <=? b
                                 | None => false
                                 end) rows)
      | None => None
      end
  | _ => None
  end.

Fixpoint apply_filters (fs : list filter_op) (rows : list row) : option (list row) :=
  match fs with
  | [] => Some rows
  | f :: fs' =>
      match apply_filter f rows with
      | Some rows' => apply_filters fs' rows'
      | None => None
      end
  end.

Definition sort_key (r : row) : Z :=
  match instant r with Some t => t | None => 0 end.

(** Latest first; among rows of one instant the order is the server's
    (here a later row comes first). *)
Fixpoint insert_desc (r : row) (rows : list row) : list row :=
  match rows with
  | [] => [r]
  | x :: rows' =>
      if sort_key x <? sort_key r then r :: rows
      else x :: insert_desc r rows'
  end.

Fixpoint sort_desc (rows : list row) : list row :=
  match rows with
  | [] => []
  | r :: rows' => insert_desc r (sort_desc rows')
  end.

(** The rows a query selects from a table. *)
Definition select (q : query) (t : list row) : option (list row) :=
  match apply_filters (filters q) t with
  | Some rows =>
      let rows := if order_created_at_desc q then sort_desc rows else rows in
      Some (match limit q with
            | Some n => firstn (Z.to_nat n) rows
            | None => rows
            end)
  | None => None
  end.

(** [query.execute()] *)
Definition execute (e : env) (q : query) : M world (list row) :=
  (log TableSelect ;;;
   match table_fault e with
   | Some msg => raise (APIError msg)
   | None =>
       fun w =>
         match select q (table w) with
         | Some rows => (Ok rows, w)
         | None => (Raise (APIError "invalid input syntax"), w)
         end
   end)%py.

(** [query.single().execute()]: the server answers a request for one object
    with an error (406, PGRST116) unless exactly one row matches, and the
    client raises it. *)
Definition execute_single (e : env) (q : query) : M world (option row) :=
  (rows <- execute e q ;;
   match rows with
   | [r] => ret (Some r)
   | _ => raise (APIError "PGRST116: JSON object requested, multiple (or no) rows returned")
   end)%py.

End Supabase.

(** * [main.py] *)

Module Main.

Import Supabase.
Local Open Scope py_scope.

(** An [UploadFile]: the name the client gave and the bytes.  Its truth value
    is that of any object, true. *)
Record UploadFile : Type := mkUploadFile {
  filename : string;
  content : string
}.

(** [class SummaryResponse(BaseModel)] *)
Record SummaryResponse : Type := mkSummaryResponse {
  summary_id : string;
  patient_id : string;
  patient_name : string;
  summary_text : string;
  diagnoses : list string;
  affected_system : option string;
  affected_organ : option string;
  animation_asset : option string;
  raw_notes_type : string;
  raw_notes_text : option string;
  raw_notes_file_url : option string;
  created_at : PyTime.datetime
}.

(** [class SummaryListItem(BaseModel)] *)
Record SummaryListItem : Type := mkSummaryListItem {
  li_summary_id : string;
  li_patient_name : string;
  li_summary_text : string;
  li_affected_organ : option string;
  li_animation_asset : option string;
  li_created_at : PyTime.datetime
}.

(** Truth value of an [Optional[UploadFile]]: only [None] is false. *)
Definition present (file : option UploadFile) : bool :=
  match file with Some _ => true | None => false end.

(** The parameters of [create_summary], as FastAPI binds them from the
    multipart form. *)
Module Form.
Record t : Type := mk {
  patient_id : string;
  patient_name : string;
  summary_text : string;
  diagnoses : string;
  affected_system : option string;
  affected_organ : option string;
  animation_asset : option string;
  raw_notes_text : option string;
  raw_notes_file : option UploadFile
}.
End Form.

(** The last component of a path. *)
Fixpoint basename (s : string) : string :=
  match s with
  | EmptyString => EmptyString
  | String c r =>
      if PyStr.contains "/"%char r then basename r
      else if Ascii.eqb c "/"%char then r else s
  end.

(** The part of [s] from its last dot on. *)
Fixpoint from_last_dot (s : string) : option string :=
  match s with
  | EmptyString => None
  | String c r =>
      match from_last_dot r with
      | Some x => Some x
      | None => if Ascii.eqb c "."%char then Some s else None
      end
  end.

(** [Path(name).suffix]: from the last dot of the last component, unless
    that dot starts or ends the component. *)
Definition suffix (name : string) : string :=
  match basename name with
  | String _ r =>
      match from_last_dot r with
      | Some x => if (1 <? String.length x)%nat then x else EmptyString
      | None => EmptyString
      end
  | EmptyString => EmptyString
  end.

(** [upload_pdf_to_supabase] *)
Definition upload_pdf_to_supabase (e : env) (file : UploadFile)
    (patient_id : string) : M world string :=
  try_except
    (let file_extension :=
       if PyStr.truthy (suffix (filename file)) then suffix (filename file)
       else ".pdf" in
     let unique_filename := patient_id ++ "/" ++ uuid4 e ++ file_extension in
     let file_content := content file in
     upload e unique_filename file_content ;;;
     let public_url := get_public_url e unique_filename in
     ret public_url)
    (fun ex =>
       raise (HTTPException 500 ("Failed to upload PDF: " ++ exn_str ex))).

(** [determine_notes_type] *)
Definition determine_notes_type (raw_notes_text : option string)
    (raw_notes_file : option UploadFile) : string :=
  if present raw_notes_file then "pdf"
  else if PyStr.truthy_opt raw_notes_text then "text"
  else "none".

(** [parse_supabase_datetime] *)
Definition parse_supabase_datetime (datetime_str : string)
    : result PyTime.datetime :=
  let parsed :=
    if PyStr.endswith datetime_str "Z" then
      PyTime.fromisoformat (PyStr.replace "Z"%char "+00:00" datetime_str)
    else if PyStr.contains "+"%char datetime_str
            || (2 <? PyStr.count "-"%char datetime_str) then
      PyTime.fromisoformat datetime_str
    else
      PyTime.fromisoformat (datetime_str ++ "+00:00") in
  match parsed with
  | Some t => Ok t
  | None => Raise (ValueError ("Invalid isoformat string: " ++ datetime_str))
  end.

(** Pydantic's check of a [List[str]] field: every item is a string. *)
Fixpoint str_items (items : list Json.json) : option (list string) :=
  match items with
  | [] => Some []
  | Json.JString s :: items' =>
      match str_items items' with
      | Some l => Some (s :: l)
      | None => None
      end
  | _ :: _ => None
  end.

(** [SummaryResponse(summary_id=str(row["summary_id"]), ...)]: the arguments
    are evaluated first (the timestamp is parsed), then the model is
    validated. *)
Definition summary_response (r : row) : result SummaryResponse :=
  let diagnoses :=
    match r_diagnoses r with Json.JArray items => items | _ => [] end in
  match parse_supabase_datetime (r_created_at r) with
  | Ok t =>
      match str_items diagnoses with
      | Some ds =>
          Ok (mkSummaryResponse (r_summary_id r) (r_patient_id r)
                (r_patient_name r) (r_summary_text r) ds
                (r_affected_system r) (r_affected_organ r)
                (r_animation_asset r) (r_raw_notes_type r)
                (r_raw_notes_text r) (r_raw_notes_file_url r) t)
      | None =>
          Raise (ValidationError "1 validation error for SummaryResponse")
      end
  | Raise ex => Raise ex
  end.

(** [SummaryListItem(summary_id=str(item["summary_id"]), ...)] *)
Definition summary_list_item (r : row) : result SummaryListItem :=
  match parse_supabase_datetime (r_created_at r) with
  | Ok t =>
      Ok (mkSummaryListItem (r_summary_id r) (r_patient_name r)
            (r_summary_text r) (r_affected_organ r) (r_animation_asset r) t)
  | Raise ex => Raise ex
  end.

(** [[SummaryListItem(...) for item in response.data]] *)
Fixpoint summary_list (rows : list row) : result (list SummaryListItem) :=
  match rows with
  | [] => Ok []
  | r :: rows' =>
      match summary_list_item r with
      | Ok i =>
          match summary_list rows' with
          | Ok l => Ok (i :: l)
          | Raise ex => Raise ex
          end
      | Raise ex => Raise ex
      end
  end.

(** The inner [try] of [create_summary]: the decoded [diagnoses]. *)
Definition parse_diagnoses (diagnoses : string) : M world Json.json :=
  try_except
    (diagnoses_list <-
       (if PyStr.truthy diagnoses then
          match Json.loads diagnoses with
          | Some v => ret v
          | None => raise (JSONDecodeError "Expecting value")
          end
        else ret (Json.JArray [])) ;;
     raise_if (negb (Json.is_list diagnoses_list))
       (ValueError "Diagnoses must be a JSON array") ;;;
     ret diagnoses_list)
    (fun ex =>
       match ex with
       | JSONDecodeError _ =>
           raise (HTTPException 400
             "Invalid JSON format for diagnoses field. Expected JSON array.")
       | _ => raise ex
       end).

(** [create_summary], the handler of [POST /summaries] *)
Definition create_summary (e : env) (f : Form.t) : M world SummaryResponse :=
  try_except
    (diagnoses_list <- parse_diagnoses (Form.diagnoses f) ;;
     raise_if (negb (PyStr.truthy (Form.patient_id f))
               || negb (PyStr.truthy (PyStr.strip (Form.patient_id f))))
       (HTTPException 400 "patient_id is required") ;;;
     raise_if (negb (PyStr.truthy (Form.patient_name f))
               || negb (PyStr.truthy (PyStr.strip (Form.patient_name f))))
       (HTTPException 400 "patient_name is required") ;;;
     raise_if (negb (PyStr.truthy (Form.summary_text f))
               || negb (PyStr.truthy (PyStr.strip (Form.summary_text f))))
       (HTTPException 400 "summary_text is required") ;;;
     raise_if (PyStr.truthy_opt (Form.raw_notes_text f)
               && present (Form.raw_notes_file f))
       (HTTPException 400
          "Cannot provide both raw_notes_text and raw_notes_file. Choose one.") ;;;
     let notes_type :=
       determine_notes_type (Form.raw_notes_text f) (Form.raw_notes_file f) in
     raw_notes_file_url <-
       match Form.raw_notes_file f with
       | Some file =>
           raise_if (negb (PyStr.endswith (filename file) ".pdf"))
             (HTTPException 400 "Only PDF files are allowed for raw_notes_file") ;;;
           url <- upload_pdf_to_supabase e file (Form.patient_id f) ;;
           ret (Some url)
       | None => ret None
       end ;;
     let summary_data :=
       mkcolumns (Form.patient_id f) (Form.patient_name f)
         (Form.summary_text f) diagnoses_list (Form.affected_system f)
         (Form.affected_organ f) (Form.animation_asset f) notes_type
         (Form.raw_notes_text f) raw_notes_file_url in
     response_data <- insert e summary_data ;;
     match response_data with
     | [] => raise (HTTPException 500 "Failed to create summary in database")
     | created_summary :: _ => lift (summary_response created_summary)
     end)
    (fun ex =>
       match ex with
       | JSONDecodeError _ =>
           raise (HTTPException 400 "Invalid JSON format for diagnoses field")
       | HTTPException _ _ => raise ex
       | _ =>
           raise (HTTPException 500 ("Error creating summary: " ++ exn_str ex))
       end).

(** The columns the three list handlers select. *)
Definition list_columns : string :=
  "summary_id, patient_name, summary_text, affected_organ, animation_asset, created_at".

(** [get_summaries_by_patient], the handler of
    [GET /summaries/by-patient/{patient_id}] *)
Definition get_summaries_by_patient (e : env) (patient_id : string)
    : M world (list SummaryListItem) :=
  try_except
    (response_data <-
       execute e (mkquery list_columns [Eq "patient_id" patient_id] true None) ;;
     match response_data with
     | [] => ret []
     | _ => lift (summary_list response_data)
     end)
    (fun ex =>
       raise (HTTPException 500 ("Error fetching summaries: " ++ exn_str ex))).

(** The bounds [get_summaries_by_date] computes from the parsed date:
    [start_iso] and [end_iso]. *)
Definition date_range (target_date : PyTime.date) : string * string :=
  let start_datetime := PyTime.combine target_date PyTime.min_time in
  let end_datetime := PyTime.combine target_date PyTime.max_time in
  let start_iso := PyTime.isoformat start_datetime ++ "Z" in
  let end_iso := PyTime.isoformat end_datetime ++ "Z" in
  (start_iso, end_iso).

(** The query [get_summaries_by_date] sends. *)
Definition date_query (target_date : PyTime.date) : query :=
  let (start_iso, end_iso) := date_range target_date in
  mkquery list_columns
    [Gte "created_at" start_iso; Lte "created_at" end_iso] true None.

(** [get_summaries_by_date], the handler of [GET /summaries/by-date] *)
Definition get_summaries_by_date (e : env) (date : string)
    : M world (list SummaryListItem) :=
  try_except
    (target_date <-
       match PyTime.strptime_ymd date with
       | Some d => ret d
       | None =>
           raise (HTTPException 400 "Invalid date format. Use YYYY-MM-DD")
       end ;;
     response_data <- execute e (date_query target_date) ;;
     match response_data with
     | [] => ret []
     | _ => lift (summary_list response_data)
     end)
    (fun ex =>
       match ex with
       | HTTPException _ _ => raise ex
       | _ =>
           raise (HTTPException 500
                    ("Error fetching summaries by date: " ++ exn_str ex))
       end).

(** [get_all_summaries], the handler of [GET /summaries/all] *)
Definition get_all_summaries (e : env) (limit : Z)
    : M world (list SummaryListItem) :=
  try_except
    (response_data <- execute e (mkquery list_columns [] true (Some limit)) ;;
     match response_data with
     | [] => ret []
     | _ => lift (summary_list response_data)
     end)
    (fun ex =>
       raise (HTTPException 500 ("Error fetching all summaries: " ++ exn_str ex))).

(** [limit: int = Query(default=100, ge=1, le=1000)]: FastAPI binds and
    checks the parameter before it calls the handler, and answers a value
    out of bounds itself. *)
Definition Query_limit (limit : option Z) : result Z :=
  match limit with
  | None => Ok 100
  | Some n =>
      if n <? 1 then
        Raise (RequestValidationError "Input should be greater than or equal to 1")
      else if 1000 <? n then
        Raise (RequestValidationError "Input should be less than or equal to 1000")
      else Ok n
  end.

(** [GET /summaries/all?limit=...] as FastAPI serves it. *)
Definition route_get_all_summaries (e : env) (limit : option Z)
    : M world (list SummaryListItem) :=
  n <- lift (Query_limit limit) ;; get_all_summaries e n.

(** The body of [get_summary_by_id] over the answer of the datastore call. *)
Definition get_summary_by_id_on (summary_id : string)
    (call : M world (option row)) : M world SummaryResponse :=
  try_except
    (response_data <- call ;;
     match response_data with
     | None =>
         raise (HTTPException 404
                  ("Summary with ID " ++ summary_id ++ " not found"))
     | Some summary => lift (summary_response summary)
     end)
    (fun ex =>
       match ex with
       | HTTPException _ _ => raise ex
       | _ =>
           raise (HTTPException 500 ("Error fetching summary: " ++ exn_str ex))
       end).

(** [get_summary_by_id], the handler of [GET /summaries/{summary_id}] *)
Definition get_summary_by_id (e : env) (summary_id : string)
    : M world SummaryResponse :=
  get_summary_by_id_on summary_id
    (execute_single e (mkquery "*" [Eq "summary_id" summary_id] false None)).

(** [health_check] *)
Definition health_check : list (string * string) :=
  [("status", "healthy"); ("service", "Medora Clinical Summary API")].

End Main.

(** * [main.py], module level: the configuration *)

Module Startup.

(** [os.getenv(key, default)] over the environment as the list of its
    bindings. *)
Definition getenv (environ : list (string * string)) (key default : string)
    : string :=
  match find (fun kv => String.eqb (fst kv) key) environ with
  | Some kv => snd kv
  | None => default
  end.

(** A line feed. *)
Definition nl : string := String "010"%char EmptyString.

(** [sep.join(l)] *)
Fixpoint join (sep : string) (l : list string) : string :=
  match l with
  | [] => EmptyString
  | [x] => x
  | x :: l' => x ++ sep ++ join sep l'
  end.

(** [str(b)] for a [bool] *)
Definition bool_str (b : bool) : string := if b then "True" else "False".

(** What the error message quotes from the file system: the path of the
    [.env] file beside [main.py], whether it exists, and the working
    directory. *)
Record files : Type := mkfiles {
  env_file_path : string;
  env_file_exists : bool;
  getcwd : string
}.

Section Module_level.

(** The client object and [create_client] are the library's. *)
Variable Client : Type.
Variable create_client : string -> string -> result Client.

(** [os.environ] once [load_dotenv] has run. *)
Variable environ : list (string * string).
Variable fs : files.

Definition SUPABASE_URL : string :=
  PyStr.strip (getenv environ "SUPABASE_URL" EmptyString).

Definition SUPABASE_KEY : string :=
  PyStr.strip (getenv environ "SUPABASE_KEY" EmptyString).

Definition SUPABASE_STORAGE_BUCKET : string :=
  PyStr.strip (getenv environ "SUPABASE_STORAGE_BUCKET" "clinical-notes").

Definition missing_vars : list string :=
  ((if negb (PyStr.truthy SUPABASE_URL) then ["SUPABASE_URL"] else []) ++
   (if negb (PyStr.truthy SUPABASE_KEY) then ["SUPABASE_KEY"] else []))%list.

Definition error_msg : string :=
  "Missing required environment variables: " ++ join ", " missing_vars ++ nl ++
  nl ++ "Please check your .env file:" ++ nl ++
  "  Expected location: " ++ env_file_path fs ++ nl ++
  "  File exists: " ++ bool_str (env_file_exists fs) ++ nl ++
  "  Current working directory: " ++ getcwd fs ++ nl ++
  nl ++ "Your .env file should contain:" ++ nl ++
  "  SUPABASE_URL=https://your-project.supabase.co" ++ nl ++
  "  SUPABASE_KEY=your-supabase-anon-key" ++ nl ++
  "  SUPABASE_STORAGE_BUCKET=clinical-notes" ++ nl ++
  nl ++ "Run 'python check_env.py' to verify your .env file is being loaded correctly.".

(** The globals the handlers use, once the module has been imported. *)
Record globals : Type := mkglobals {
  g_SUPABASE_URL : string;
  g_SUPABASE_KEY : string;
  g_SUPABASE_STORAGE_BUCKET : string;
  supabase : Client
}.

(** Lines 45 to 86: read the three variables, refuse to start without a URL
    and a key, make the client. *)
Definition module_level : result globals :=
  if negb (PyStr.truthy SUPABASE_URL) || negb (PyStr.truthy SUPABASE_KEY) then
    Raise (ValueError error_msg)
  else
    match create_client SUPABASE_URL SUPABASE_KEY with
    | Ok client =>
        Ok (mkglobals SUPABASE_URL SUPABASE_KEY SUPABASE_STORAGE_BUCKET client)
    | Raise e =>
        Raise (ValueError
                 ("Failed to initialize Supabase client: " ++ exn_str e ++ nl ++
                  "Please verify your SUPABASE_URL and SUPABASE_KEY in the .env file."))
    end.

End Module_level.

Arguments mkglobals {Client}.
Arguments g_SUPABASE_URL {Client}.
Arguments g_SUPABASE_KEY {Client}.
Arguments g_SUPABASE_STORAGE_BUCKET {Client}.
Arguments supabase {Client}.
Arguments module_level {Client}.

End Startup.

(** * [check_env.py] *)

Module CheckEnv.

(** The verdict of the script, [if SUPABASE_URL and SUPABASE_KEY], over the
    same three reads as [main.py]: whether it prints that all required
    variables are set. *)
Definition all_set (environ : list (string * string)) : bool :=
  let SUPABASE_URL :=
    PyStr.strip (Startup.getenv environ "SUPABASE_URL" EmptyString) in
  let SUPABASE_KEY :=
    PyStr.strip (Startup.getenv environ "SUPABASE_KEY" EmptyString) in
  PyStr.truthy SUPABASE_URL && PyStr.truthy SUPABASE_KEY.

End CheckEnv.

(** * [main.py]: the routes *)

Module Router.




(** [s.split("/")] *)
Fixpoint split_slash (s : string) : list string :=
  match s with
  | EmptyString => [EmptyString]
  | String c r =>
      if Ascii.eqb c "/"%char then EmptyString :: split_slash r
      else
        match split_slash r with
        | x :: l => String c x :: l
        | [] => [String c EmptyString]
        end
  end.

(** The segments of a request path, which starts with a slash. *)
Definition segments (p : string) : option (list string) :=
  match p with
  | String c r => if Ascii.eqb c "/"%char then Some (split_slash r) else None
  | EmptyString => None
  end.








Definition some_segments (p : string) : list string :=
  match segments p with Some segs => segs | None => [] end.


End Router.

(** * The properties: what they are stated over *)

Import Supabase Main.

(** ** Inputs used as examples *)

Definition env0 : env :=
  mkenv "https://medora.supabase.co" "clinical-notes"
    "0b6f7c1e-5d2a-4c57-9a3e-2f4f0c1d8e11" None None
    "7d0a3c52-19a4-4b0e-8f66-3c1b2a9d4e50"
    "2024-01-15T10:30:00.123456+00:00" true.

Definition world0 : world := mkworld [] [] [].

Definition notes_pdf : UploadFile := mkUploadFile "notes.pdf" "%PDF-1.4".


(** A form with the three required fields and [diagnoses=["A","B"]]. *)
Definition form_ab : Form.t :=
  Form.mk "patient-001" "Anita Sharma" "Elevated HbA1c levels." json_ab
    None None None None None.



(** Notes given both ways. *)
Definition form_both : Form.t :=
  Form.mk "patient-001" "Anita Sharma" "Elevated HbA1c levels." "[]"
    None None None (Some "foo") (Some notes_pdf).


(** ** The words of the specification *)

(** [raw_notes_type] as the specification derives it: ["pdf"] if a file was
    uploaded, else ["text"] if [raw_notes_text] is non-empty, else
    ["none"]. *)
Definition spec_notes_type (f : Form.t) : string :=
  match Form.raw_notes_file f with
  | Some _ => "pdf"
  | None =>
      match Form.raw_notes_text f with
      | Some (String _ _) => "text"
      | _ => "none"
      end
  end.

(** The list [create_summary] decodes from the form: the empty string is the
    empty list. *)
Definition decoded_diagnoses (f : Form.t) : option Json.json :=
  if PyStr.truthy (Form.diagnoses f) then Json.loads (Form.diagnoses f)
  else Some (Json.JArray []).

(** The row [create_summary] inserts for a form, given the decoded list and
    the URL of the uploaded file. *)
Definition inserted_row (e : env) (f : Form.t) (items : list Json.json)
    (url : option string) : row :=
  stored e
    (mkcolumns (Form.patient_id f) (Form.patient_name f)
       (Form.summary_text f) (Json.JArray items) (Form.affected_system f)
       (Form.affected_organ f) (Form.animation_asset f)
       (determine_notes_type (Form.raw_notes_text f) (Form.raw_notes_file f))
       (Form.raw_notes_text f) url).

(** The storage key [upload_pdf_to_supabase] builds. *)
Definition storage_key (e : env) (f : Form.t) (file : UploadFile) : string :=
  Form.patient_id f ++ "/" ++ uuid4 e ++
  (if PyStr.truthy (suffix (filename file)) then suffix (filename file)
   else ".pdf").

(** A required field is missing: [not s or not s.strip()]. *)
Definition blank (s : string) : bool :=
  negb (PyStr.truthy s) || negb (PyStr.truthy (PyStr.strip s)).

(** The checks of [create_summary] as a list in their order, with the
    answer of the first one that fails: decode [diagnoses], the three
    required fields, text and file together, the name of the file. *)
Definition first_failure (f : Form.t) : option exn :=
  match decoded_diagnoses f with
  | None =>
      Some (HTTPException 400
              "Invalid JSON format for diagnoses field. Expected JSON array.")
  | Some v =>
      if negb (Json.is_list v) then
        Some (HTTPException 500
                "Error creating summary: Diagnoses must be a JSON array")
      else if blank (Form.patient_id f) then
        Some (HTTPException 400 "patient_id is required")
      else if blank (Form.patient_name f) then
        Some (HTTPException 400 "patient_name is required")
      else if blank (Form.summary_text f) then
        Some (HTTPException 400 "summary_text is required")
      else if PyStr.truthy_opt (Form.raw_notes_text f)
              && present (Form.raw_notes_file f) then
        Some (HTTPException 400
                "Cannot provide both raw_notes_text and raw_notes_file. Choose one.")
      else
        match Form.raw_notes_file f with
        | Some file =>
            if negb (PyStr.endswith (filename file) ".pdf") then
              Some (HTTPException 400
                      "Only PDF files are allowed for raw_notes_file")
            else None
        | None => None
        end
  end.


(** C7 as the specification words it: a limit out of bounds is an
    [InvalidArgument], status 400. *)
Definition C7_as_stated : Prop :=
  forall e w n,
    n < 1 \/ 1000 < n ->
    http_status 200 (fst (route_get_all_summaries e (Some n) w)) = 400.








(** ** More examples *)

(** A PDF and no text. *)
Definition form_pdf : Form.t :=
  Form.mk "patient-002" "Ravi Kumar" "Chest discomfort on exertion." "[]"
    (Some "Cardiovascular") (Some "Heart") None None (Some notes_pdf).

(** What the datastore of [env0] renders as [created_at], parsed. *)
Definition created0 : PyTime.datetime :=
  PyTime.mkdatetime 2024 1 15 10 30 0 123456 (Some 0).


Definition resp_pdf : SummaryResponse :=
  mkSummaryResponse (generated_id env0) "patient-002" "Ravi Kumar"
    "Chest discomfort on exertion." [] (Some "Cardiovascular") (Some "Heart")
    None "pdf" None
    (Some (get_public_url env0 (storage_key env0 form_pdf notes_pdf)))
    created0.

(** The world after [form_ab], after [form_pdf] and after
    [form_empty_text], each from [world0]. *)
Definition world_ab : world :=
  Eval vm_compute in snd (create_summary env0 form_ab world0).

Definition world_pdf : world :=
  Eval vm_compute in snd (create_summary env0 form_pdf world0).




(** A timestamp without a zone, as a [timestamp] column is rendered, and
    what the parser makes of it. *)
Definition created_no_zone : string := "2024-01-15T10:30:00".

Definition created_no_zone_parsed : PyTime.datetime :=
  PyTime.mkdatetime 2024 1 15 10 30 0 0 (Some 0).


(** ** What the further properties are stated over *)

(** The order of a list answer: a row is at least as recent as every row
    after it. *)
Definition newer_first (a b : row) : Prop := sort_key b <= sort_key a.

(** A list item shows a row: five columns as they are, and [created_at]
    parsed. *)
Definition projects (r : row) (i : SummaryListItem) : Prop :=
  li_summary_id i = r_summary_id r /\
  li_patient_name i = r_patient_name r /\
  li_summary_text i = r_summary_text r /\
  li_affected_organ i = r_affected_organ r /\
  li_animation_asset i = r_animation_asset r /\
  parse_supabase_datetime (r_created_at r) = Ok (li_created_at i).

(** The rows of a patient, and the rows with a key. *)
Definition of_patient (patient_id : string) (r : row) : bool :=
  String.eqb (r_patient_id r) patient_id.

Definition with_id (summary_id : string) (r : row) : bool :=
  String.eqb (r_summary_id r) summary_id.

(** The collaborators hold the same in both worlds. *)
Definition same_data (w w' : world) : Prop :=
  table w' = table w /\ bucket w' = bucket w.

(** The items of the decoded [diagnoses] of a form. *)
Definition form_items (f : Form.t) : list Json.json :=
  match decoded_diagnoses f with
  | Some (Json.JArray items) => items
  | _ => []
  end.

(** The URL of the file of a form, if it has one. *)
Definition form_url (e : env) (f : Form.t) : option string :=
  match Form.raw_notes_file f with
  | Some file => Some (get_public_url e (storage_key e f file))
  | None => None
  end.

(** The row [create_summary] stores for a form. *)
Definition row_of_form (e : env) (f : Form.t) : row :=
  inserted_row e f (form_items f) (form_url e f).

(** Both collaborators answer the calls [create_summary] makes for a form:
    the insert goes through and returns the row, and so does the upload if
    there is a file. *)
Definition collaborators_ok (e : env) (f : Form.t) (w : world) : Prop :=
  table_fault e = None /\ returning e = true /\
  has_id (generated_id e) (table w) = false /\
  match Form.raw_notes_file f with
  | Some file =>
      storage_fault e = None /\
      has_key (storage_key e f file) (bucket w) = false
  | None => True
  end.

(** The world once [create_summary] has stored a form: the file, if any,
    then the row. *)
Definition world_after_create (e : env) (f : Form.t) (w : world) : world :=
  match Form.raw_notes_file f with
  | Some file =>
      mkworld (table w ++ [row_of_form e f])
        ((storage_key e f file, content file) :: bucket w)
        (TableInsert :: StorageUpload (storage_key e f file) :: calls w)
  | None =>
      mkworld (table w ++ [row_of_form e f]) (bucket w)
        (TableInsert :: calls w)
  end.

(** The key of a stored PDF: the patient, a slash, the fresh identifier and
    [.pdf]. *)
Definition pdf_key (e : env) (f : Form.t) : string :=
  Form.patient_id f ++ "/" ++ uuid4 e ++ ".pdf".

(** Only white space, in the sense of [PyStr.isspace]. *)
Fixpoint all_space (s : string) : bool :=
  match s with
  | EmptyString => true
  | String c s' => PyStr.isspace c && all_space s'
  end.

(** A visible ASCII character, [!] to [~]. *)
Definition is_graph (c : ascii) : bool :=
  let n := Z.of_nat (nat_of_ascii c) in (33 <=? n) && (n <=? 126).

Fixpoint has_graph (s : string) : bool :=
  match s with
  | EmptyString => false
  | String c s' => is_graph c || has_graph s'
  end.

(** The value of an environment variable, if it is set. *)
Definition lookup (environ : list (string * string)) (key : string)
    : option string :=
  match find (fun kv => String.eqb (fst kv) key) environ with
  | Some kv => Some (snd kv)
  | None => None
  end.

(** A variable is unset, or set to white space only. *)
Definition unset_or_blank (environ : list (string * string)) (key : string)
    : bool :=
  match lookup environ key with
  | Some v => all_space v
  | None => true
  end.

(** A variable is set and holds a visible character. *)
Definition visible (environ : list (string * string)) (key : string) : bool :=
  match lookup environ key with
  | Some v => has_graph v
  | None => false
  end.

(** ** Further examples *)

(** Three stored rows, two of them of one patient, oldest first. *)
Definition row_of (id patient name created : string) : row :=
  mkrow id patient name "Stable." (Json.JArray []) None None None "none"
    None None created.

Definition row_jan15 : row :=
  row_of "s-1" "patient-001" "Anita Sharma" "2024-01-15T10:30:00+00:00".

Definition row_jan16 : row :=
  row_of "s-2" "patient-002" "Ravi Kumar" "2024-01-16T08:00:00+00:00".

Definition row_jan17 : row :=
  row_of "s-3" "patient-001" "Anita Sharma" "2024-01-17T09:15:00+00:00".

Definition world_three : world :=
  mkworld [row_jan15; row_jan16; row_jan17] [] [].

(** Their list items. *)
Definition item_jan15 : SummaryListItem :=
  mkSummaryListItem "s-1" "Anita Sharma" "Stable." None None
    (PyTime.mkdatetime 2024 1 15 10 30 0 0 (Some 0)).

Definition item_jan16 : SummaryListItem :=
  mkSummaryListItem "s-2" "Ravi Kumar" "Stable." None None
    (PyTime.mkdatetime 2024 1 16 8 0 0 0 (Some 0)).

Definition item_jan17 : SummaryListItem :=
  mkSummaryListItem "s-3" "Anita Sharma" "Stable." None None
    (PyTime.mkdatetime 2024 1 17 9 15 0 0 (Some 0)).

(** The full answer for the second row. *)
Definition resp_jan16 : SummaryResponse :=
  mkSummaryResponse "s-2" "patient-002" "Ravi Kumar" "Stable." [] None None
    None "none" None None (PyTime.mkdatetime 2024 1 16 8 0 0 0 (Some 0)).

(** A row whose [created_at] is the special value [infinity] of a
    [timestamptz] column, beside a regular one. *)
Definition row_infinity : row :=
  row_of "s-9" "patient-001" "Anita Sharma" "infinity".

Definition world_infinity : world :=
  mkworld [row_jan15; row_infinity] [] [].

(** The storage service, or the datastore, is down; or the insert returns
    no row. *)
Definition env_storage_down : env :=
  mkenv (SUPABASE_URL env0) (SUPABASE_STORAGE_BUCKET env0) (uuid4 env0)
    (Some "Bucket not found") None (generated_id env0) (now env0) true.

Definition env_table_down : env :=
  mkenv (SUPABASE_URL env0) (SUPABASE_STORAGE_BUCKET env0) (uuid4 env0)
    None (Some "connection refused") (generated_id env0) (now env0) true.

Definition env_no_return : env :=
  mkenv (SUPABASE_URL env0) (SUPABASE_STORAGE_BUCKET env0) (uuid4 env0)
    None None (generated_id env0) (now env0) false.

(** The required fields with white space around them. *)
Definition form_padded : Form.t :=
  Form.mk "  patient-001 " " Anita Sharma" "Elevated HbA1c levels.  " "[]"
    None None None None None.

Definition resp_padded : SummaryResponse :=
  mkSummaryResponse (generated_id env0) "  patient-001 " " Anita Sharma"
    "Elevated HbA1c levels.  " [] None None None "none" None None created0.

Definition world_padded : world :=
  Eval vm_compute in snd (create_summary env0 form_padded world0).

(** [diagnoses] is an array of numbers. *)
Definition form_numbers : Form.t :=
  Form.mk "patient-001" "Anita Sharma" "Elevated HbA1c levels." "[1]"
    None None None None None.

(** Environments: the key is blank; and all is set, the bucket to
    blanks. *)
Definition environ_blank_key : list (string * string) :=
  [("SUPABASE_URL", "https://medora.supabase.co"); ("SUPABASE_KEY", "   ")].

Definition environ_blank_bucket : list (string * string) :=
  [("SUPABASE_URL", " https://medora.supabase.co"); ("SUPABASE_KEY", "eyJhbGciOi");
   ("SUPABASE_STORAGE_BUCKET", "  ")].

Definition no_files : Startup.files :=
  Startup.mkfiles "/srv/backend/.env" false "/srv/backend".

(** A [create_client] that accepts what it is given. *)
Definition any_client (url key : string) : result unit := Ok tt.

(** * Proofs *)

(** ** Running a handler *)

Ltac run_handler :=
  unfold create_summary, parse_diagnoses, upload_pdf_to_supabase,
    get_summary_by_id, get_summary_by_id_on, get_summaries_by_date,
    get_summaries_by_patient, get_all_summaries, route_get_all_summaries,
    execute_single, execute, insert, upload, log,
    try_except, bind, raise_if, raise, ret, lift in *.

(** Case analysis on an innermost scrutinee of the goal. *)
Ltac break_inner :=
  match goal with
  | |- context [match ?x with _ => _ end] =>
      lazymatch x with
      | context [match _ with _ => _ end] => fail
      | _ => destruct x eqn:?
      end
  end.

(** The same in a hypothesis. *)
Ltac break_inner_in H :=
  match type of H with
  | context [match ?x with _ => _ end] =>
      lazymatch x with
      | context [match _ with _ => _ end] => fail
      | _ => destruct x eqn:?
      end
  end.

(** ** C2, C6: a [diagnoses] that is no array *)

(** A document that decodes to anything but an array ends in the catch-all
    clause of [create_summary]: status 500, and no collaborator is called. *)
Lemma create_summary_not_array e f w v :
  PyStr.truthy (Form.diagnoses f) = true ->
  Json.loads (Form.diagnoses f) = Some v ->
  Json.is_list v = false ->
  create_summary e f w =
  (Raise (HTTPException 500
            "Error creating summary: Diagnoses must be a JSON array"), w).
Proof.
  intros Ht Hl Hv. run_handler. now rewrite Ht, Hl, Hv.
Qed.

(** A document that does not decode is answered with 400. *)
Lemma create_summary_malformed e f w :
  PyStr.truthy (Form.diagnoses f) = true ->
  Json.loads (Form.diagnoses f) = None ->
  create_summary e f w =
  (Raise (HTTPException 400
            "Invalid JSON format for diagnoses field. Expected JSON array."), w).
Proof.
  intros Ht Hl. run_handler. now rewrite Ht, Hl.
Qed.

(** The checks run in the order of [first_failure], and the first that fails
    is the answer; neither collaborator has been called by then. *)
Lemma create_summary_first_failure e f w x :
  first_failure f = Some x -> create_summary e f w = (Raise x, w).
Proof.
  unfold first_failure, decoded_diagnoses, blank. intros H. run_handler.
  repeat (break_inner_in H; cbn [negb orb andb fst snd] in *;
          try discriminate);
    injection H as <-; reflexivity.
Qed.

(** C2 (the code at the failing input): with [diagnoses="{}"], valid JSON
    that is not an array, [create_summary] does not answer 400: the
    [ValueError] it raises passes the [except json.JSONDecodeError] clause and
    is answered by the catch-all with status 500, whatever the other
    fields. *)
Theorem C2_object_diagnoses_is_500 :
  forall e w pid pname stext sys organ asset text file,
    let f := Form.mk pid pname stext "{}" sys organ asset text file in
    create_summary e f w =
    (Raise (HTTPException 500
              "Error creating summary: Diagnoses must be a JSON array"), w)
    /\ http_status 201 (fst (create_summary e f w)) = 500
    /\ http_status 201
         (fst (create_summary e
                 (Form.mk pid pname stext "not json" sys organ asset text file)
                 w)) = 400.
Proof.
  intros. repeat split; reflexivity.
Qed.


(** ** What a run of [create_summary] does to the world *)

(** Either the table is as it was and the handler failed, or exactly one row
    was appended: the row of the form, with the decoded list and the URL of
    the upload; the two raw-notes inputs were not both given; the bucket
    gained the file if there was one. *)
Lemma create_summary_effect e f w r w' :
  create_summary e f w = (r, w') ->
  (table w' = table w /\ (forall a, r <> Ok a)) \/
  (exists items url,
     decoded_diagnoses f = Some (Json.JArray items) /\
     PyStr.truthy_opt (Form.raw_notes_text f) && present (Form.raw_notes_file f)
       = false /\
     match Form.raw_notes_file f with
     | Some file =>
         url = Some (get_public_url e (storage_key e f file)) /\
         bucket w' = (storage_key e f file, content file) :: bucket w
     | None => url = None /\ bucket w' = bucket w
     end /\
     has_id (generated_id e) (table w) = false /\
     table w' = (table w ++ [inserted_row e f items url])%list /\
     (forall a, r = Ok a ->
                summary_response (inserted_row e f items url) = Ok a)).
Proof.
  intros H. run_handler.
  unfold decoded_diagnoses, inserted_row, storage_key.
  repeat (break_inner_in H;
          cbn [negb orb andb fst snd table bucket calls] in *;
          try discriminate).
  all: try (injection H as <- <-).
  all: try (left; split; [reflexivity | congruence]).
  all: try match goal with
           | Hj : negb (Json.is_list ?j) = false |- _ =>
               destruct j; try discriminate Hj
           end.
  all: right; do 2 eexists; cbn [table bucket calls];
       repeat split; try reflexivity; try assumption.
  all: try (intros ? [= <-]; assumption).
  all: intros; discriminate.
Qed.

Lemma determine_notes_type_spec f :
  determine_notes_type (Form.raw_notes_text f) (Form.raw_notes_file f)
  = spec_notes_type f.
Proof.
  unfold determine_notes_type, spec_notes_type.
  destruct (Form.raw_notes_file f); [reflexivity|].
  destruct (Form.raw_notes_text f) as [[|c t]|]; reflexivity.
Qed.


(** The answer built from a row repeats its fields. *)
Lemma summary_response_fields x a :
  summary_response x = Ok a ->
  summary_id a = r_summary_id x /\
  raw_notes_type a = r_raw_notes_type x /\
  raw_notes_text a = r_raw_notes_text x /\
  raw_notes_file_url a = r_raw_notes_file_url x /\
  str_items (match r_diagnoses x with Json.JArray items => items | _ => [] end)
    = Some (diagnoses a) /\
  parse_supabase_datetime (r_created_at x) = Ok (created_at a).
Proof.
  unfold summary_response. intros H.
  destruct (parse_supabase_datetime (r_created_at x)) as [t|]; [|discriminate].
  destruct (str_items _) as [ds|]; [|discriminate].
  injection H as <-. cbn. repeat split; reflexivity.
Qed.



(** ** C3: raw notes given both ways *)




(** ** C4: the derived [raw_notes_type] *)

(** C4: when [create_summary] succeeds, the [raw_notes_type] it returns and
    the one in the row it appended are the one the specification derives
    (["pdf"] if there is a file, else ["text"] if [raw_notes_text] is
    non-empty, else ["none"]), one of the three values; and the bucket gained
    the file exactly when there was one. *)
Theorem C4_notes_type_derived :
  forall e f w a w',
    create_summary e f w = (Ok a, w') ->
    raw_notes_type a = spec_notes_type f /\
    In (raw_notes_type a) ["text"; "pdf"; "none"] /\
    (exists x, table w' = (table w ++ [x])%list /\
               r_summary_id x = summary_id a /\
               r_raw_notes_type x = spec_notes_type f) /\
    match Form.raw_notes_file f with
    | Some file => exists key, bucket w' = (key, content file) :: bucket w
    | None => bucket w' = bucket w
    end.
Proof.
  intros e f w a w' H.
  destruct (create_summary_effect _ _ _ _ _ H) as [[_ Hno] | Hrow].
  - now destruct (Hno a).
  - destruct Hrow as (items & url & _ & _ & Hfile & _ & Htab & Hresp).
    destruct (summary_response_fields _ _ (Hresp a eq_refl))
      as (Hid & Hty & _).
    assert (Ha : raw_notes_type a = spec_notes_type f).
    { rewrite Hty. cbn. apply determine_notes_type_spec. }
    split; [exact Ha|]. split.
    + rewrite Ha. unfold spec_notes_type.
      destruct (Form.raw_notes_file f); [cbn; auto|].
      destruct (Form.raw_notes_text f) as [[|c t]|]; cbn; auto.
    + split.
      * exists (inserted_row e f items url). split; [exact Htab|].
        split; [now rewrite Hid|]. cbn. apply determine_notes_type_spec.
      * destruct (Form.raw_notes_file f) as [file|].
        -- exists (storage_key e f file). apply Hfile.
        -- apply Hfile.
Qed.

(** The theorem at [form_pdf]: the answer and the row say [pdf], the bucket holds
    the file. *)
Lemma C4_notes_type_derived_witness :
  create_summary env0 form_pdf world0 = (Ok resp_pdf, world_pdf) /\
  raw_notes_type resp_pdf = "pdf" /\
  exists key, bucket world_pdf = (key, content notes_pdf) :: bucket world0.
Proof.
  assert (H : create_summary env0 form_pdf world0 = (Ok resp_pdf, world_pdf))
    by (vm_compute; reflexivity).
  split; [exact H|].
  destruct (C4_notes_type_derived env0 form_pdf world0 resp_pdf world_pdf H)
    as (Ht & _ & _ & Hb).
  split; [exact Ht | exact Hb].
Defined.

(** ** C9: which raw-notes fields a stored row carries *)




(** ** C8: the round trip of [diagnoses] *)

Lemma filter_no_id id t :
  has_id id t = false ->
  filter (fun r => String.eqb (r_summary_id r) id) t = [].
Proof.
  unfold has_id. induction t as [|x t IH]; [reflexivity|].
  cbn. destruct (String.eqb (r_summary_id x) id); [discriminate|].
  exact IH.
Qed.




(** ** C1: fetching an id that no row has *)

(** The 404 of [get_summary_by_id] is the answer to a datastore call that
    returns without data. *)
Lemma get_summary_by_id_on_no_data summary_id w :
  get_summary_by_id_on summary_id (ret None) w =
  (Raise (HTTPException 404 ("Summary with ID " ++ summary_id ++ " not found")),
   w).
Proof. reflexivity. Qed.

(** What the datastore call raises, the handler answers with 500. *)
Lemma get_summary_by_id_on_raise summary_id msg w :
  get_summary_by_id_on summary_id (raise (APIError msg)) w =
  (Raise (HTTPException 500 ("Error fetching summary: " ++ msg)), w).
Proof. reflexivity. Qed.

(** C1 (the code at the failing input): for an id that no row of the table
    has, [get_summary_by_id] answers with status 500, never 404: the
    [single()] request raises (no row, PGRST116, or the call itself failed)
    and the catch-all clause maps what it raised to a 500. *)
Theorem C1_missing_id_is_500 :
  forall e summary_id w,
    has_id summary_id (table w) = false ->
    exists d,
      fst (get_summary_by_id e summary_id w) = Raise (HTTPException 500 d) /\
      http_status 200 (fst (get_summary_by_id e summary_id w)) <> 404.
Proof.
  intros e sid w Hid. run_handler.
  destruct (table_fault e) as [msg|]; cbn.
  - eexists. split; [reflexivity | lia].
  - unfold select. cbn. rewrite (filter_no_id _ _ Hid). cbn.
    eexists. split; [reflexivity | lia].
Qed.

(** The theorem at an id the table of [world_ab] does not hold. *)
Lemma C1_missing_id_is_500_witness :
  has_id "00000000-0000-0000-0000-000000000000" (table world_ab) = false /\
  exists d,
    fst (get_summary_by_id env0 "00000000-0000-0000-0000-000000000000" world_ab)
    = Raise (HTTPException 500 d) /\
    http_status 200
      (fst (get_summary_by_id env0 "00000000-0000-0000-0000-000000000000"
              world_ab)) <> 404.
Proof.
  split; [reflexivity|].
  apply (C1_missing_id_is_500 env0 "00000000-0000-0000-0000-000000000000"
           world_ab).
  reflexivity.
Defined.

(** ** C7: the bounds of [limit] *)

Lemma summary_list_length rows items :
  summary_list rows = Ok items -> length items = length rows.
Proof.
  revert items. induction rows as [|x rows IH]; intros items H; cbn in H.
  - now injection H as <-.
  - destruct (summary_list_item x); [|discriminate].
    destruct (summary_list rows) as [l|]; [|discriminate].
    injection H as <-. cbn. f_equal. now apply IH.
Qed.

(** C7 (counter-example): [limit=0] is answered with status 422, the answer
    of FastAPI to a parameter that fails its declared constraints, not with
    the 400 of [InvalidArgument]. *)
Lemma C7_limit_zero_is_422 : ~ C7_as_stated.
Proof.
  intros H. specialize (H env0 world0 0 (or_introl eq_refl)).
  vm_compute in H. discriminate H.
Qed.

(** C7 (amended): a [limit] below 1 or above 1000 is refused by the
    parameter validation with status 422, the handler does not run and no
    collaborator is called; an omitted [limit] is 100; for a [limit] within
    the bounds, a returned sequence has at most [limit] items. *)
Theorem C7_limit_bounds :
  forall e w limit r w',
    route_get_all_summaries e limit w = (r, w') ->
    match limit with
    | None => (r, w') = get_all_summaries e 100 w
    | Some n =>
        if (n <? 1) || (1000 <? n) then
          (exists msg, r = Raise (RequestValidationError msg)) /\
          http_status 200 r = 422 /\ w' = w
        else
          forall items, r = Ok items -> Z.of_nat (length items) <= n
    end.
Proof.
  intros e w limit r w' H. destruct limit as [n|].
  - unfold route_get_all_summaries, Query_limit, lift, bind in H.
    destruct (n <? 1) eqn:Hlo; cbn [orb].
    + injection H as <- <-. split; [eexists; reflexivity|]. now split.
    + destruct (1000 <? n) eqn:Hhi.
      * injection H as <- <-. split; [eexists; reflexivity|]. now split.
      * apply Z.ltb_ge in Hlo. intros items ->.
        run_handler.
        destruct (table_fault e); [discriminate|]. cbn in H.
        assert (Hlen : Z.of_nat (length (firstn (Z.to_nat n)
                                           (sort_desc (table w)))) <= n)
          by (rewrite length_firstn; lia).
        destruct (firstn (Z.to_nat n) (sort_desc (table w))) as [|x rows].
        -- injection H as <- _. cbn. lia.
        -- destruct (summary_list (x :: rows)) as [l|] eqn:Hl; [|discriminate].
           injection H as <- _.
           now rewrite (summary_list_length _ _ Hl).
  - symmetry. exact H.
Qed.

(** The theorem at [limit=1001]. *)
Lemma C7_limit_bounds_witness :
  route_get_all_summaries env0 (Some 1001) world_ab =
    (Raise (RequestValidationError "Input should be less than or equal to 1000"),
     world_ab) /\
  http_status 200
    (Raise (A := list SummaryListItem)
       (RequestValidationError "Input should be less than or equal to 1000"))
  = 422.
Proof.
  assert (H : route_get_all_summaries env0 (Some 1001) world_ab =
    (Raise (RequestValidationError "Input should be less than or equal to 1000"),
     world_ab)) by reflexivity.
  split; [exact H|].
  apply (C7_limit_bounds env0 world_ab (Some 1001) _ _ H).
Defined.

(** ** C10: the parsed [created_at] and its offset *)

Lemma contains_app c a b :
  PyStr.contains c (a ++ b) = PyStr.contains c a || PyStr.contains c b.
Proof.
  induction a as [|x a IH]; [reflexivity|].
  cbn [append PyStr.contains]. rewrite IH. now rewrite orb_assoc.
Qed.


















(** ** C5: the range of [get_summaries_by_date] *)















(** * Further properties of the handlers *)

(** ** The list handlers: which rows, in which order *)

(** Sorting keeps the rows and puts them latest first. *)
Lemma Permutation_insert_desc x rows :
  Permutation (insert_desc x rows) (x :: rows).
Proof.
  induction rows as [|y rows IH]; cbn [insert_desc]; [reflexivity|].
  destruct (sort_key y <? sort_key x); [reflexivity|].
  rewrite IH. apply perm_swap.
Qed.

Lemma Permutation_sort_desc rows : Permutation (sort_desc rows) rows.
Proof.
  induction rows as [|x rows IH]; cbn [sort_desc]; [reflexivity|].
  rewrite Permutation_insert_desc. now constructor.
Qed.

Lemma insert_desc_sorted x rows :
  StronglySorted newer_first rows ->
  StronglySorted newer_first (insert_desc x rows).
Proof.
  induction 1 as [|y rows Hs IH Hy]; cbn [insert_desc].
  - repeat constructor.
  - destruct (sort_key y <? sort_key x) eqn:Hlt.
    + apply Z.ltb_lt in Hlt. constructor.
      * now constructor.
      * constructor; [unfold newer_first; lia|].
        eapply Forall_impl; [|exact Hy]. unfold newer_first. intros; lia.
    + apply Z.ltb_ge in Hlt. constructor; [exact IH|].
      apply (Permutation_Forall (Permutation_sym (Permutation_insert_desc x rows))).
      constructor; [exact Hlt | exact Hy].
Qed.

Lemma sort_desc_sorted rows : StronglySorted newer_first (sort_desc rows).
Proof.
  induction rows as [|x rows IH]; cbn [sort_desc]; [constructor|].
  now apply insert_desc_sorted.
Qed.

Lemma sorted_app_prefix (R : row -> row -> Prop) l1 l2 :
  StronglySorted R (l1 ++ l2)%list -> StronglySorted R l1.
Proof.
  induction l1 as [|x l1 IH]; intros Hs; [constructor|].
  cbn in Hs. inversion Hs as [|? ? Hs' Hx]; subst.
  constructor; [now apply IH|].
  apply Forall_app in Hx. tauto.
Qed.

Lemma sorted_app_le (R : row -> row -> Prop) l1 l2 :
  StronglySorted R (l1 ++ l2)%list ->
  forall a b, In a l1 -> In b l2 -> R a b.
Proof.
  induction l1 as [|x l1 IH]; intros Hs a b Ha Hb; [destruct Ha|].
  cbn in Hs. inversion Hs as [|? ? Hs' Hx]; subst.
  destruct Ha as [<-|Ha].
  - rewrite Forall_forall in Hx. apply Hx. apply in_or_app. now right.
  - now apply IH.
Qed.

(** The items of a list answer show the rows one by one. *)
Lemma summary_list_projects rows items :
  summary_list rows = Ok items -> Forall2 projects rows items.
Proof.
  revert items. induction rows as [|r rows IH]; intros items H;
    cbn [summary_list] in H.
  - injection H as <-. constructor.
  - unfold summary_list_item in H.
    destruct (parse_supabase_datetime (r_created_at r)) as [t|] eqn:Ht;
      [|discriminate].
    destruct (summary_list rows) as [l|]; [|discriminate].
    injection H as <-. constructor; [|now apply IH].
    unfold projects. cbn. repeat split; try reflexivity. exact Ht.
Qed.

(** A list answer needs every timestamp to parse. *)
Lemma summary_list_all_parse rows items :
  summary_list rows = Ok items ->
  forall r, In r rows ->
  exists t, parse_supabase_datetime (r_created_at r) = Ok t.
Proof.
  revert items. induction rows as [|x rows IH]; intros items H r Hr;
    [destruct Hr|].
  cbn [summary_list] in H. unfold summary_list_item in H.
  destruct (parse_supabase_datetime (r_created_at x)) as [t|] eqn:Ht;
    [|discriminate].
  destruct (summary_list rows) as [l|]; [|discriminate].
  destruct Hr as [<-|Hr]; [eauto|]. now apply (IH l).
Qed.

Lemma filter_none {A} (f : A -> bool) l :
  (forall x, In x l -> f x = false) -> filter f l = [].
Proof.
  induction l as [|x l IH]; intros H; [reflexivity|]. cbn [filter].
  rewrite (H x (or_introl eq_refl)). apply IH. intros y Hy. apply H. now right.
Qed.

(** What [get_summaries_by_patient] answers while the datastore does. *)
Lemma get_summaries_by_patient_run e patient_id w :
  table_fault e = None ->
  fst (get_summaries_by_patient e patient_id w) =
  match summary_list (sort_desc (filter (of_patient patient_id) (table w))) with
  | Ok items => Ok items
  | Raise x =>
      Raise (HTTPException 500 ("Error fetching summaries: " ++ exn_str x))
  end.
Proof.
  intros Hf. run_handler. rewrite Hf. cbn [fst snd table].
  unfold select. cbn [filters order_created_at_desc limit apply_filters
                      apply_filter].
  fold (of_patient patient_id).
  destruct (sort_desc _) as [|x rows']; [reflexivity|].
  now destruct (summary_list (x :: rows')).
Qed.

(** X1: while the datastore answers, [get_summaries_by_patient] works on
    exactly the rows of that patient (each once), latest first; it answers
    with their list items in that order, the five columns unchanged and
    [created_at] parsed, or with status 500 if a timestamp does not parse. *)
Theorem by_patient_rows :
  forall e patient_id w,
    table_fault e = None ->
    let rows := sort_desc (filter (of_patient patient_id) (table w)) in
    Permutation rows (filter (of_patient patient_id) (table w)) /\
    StronglySorted newer_first rows /\
    fst (get_summaries_by_patient e patient_id w) =
      match summary_list rows with
      | Ok items => Ok items
      | Raise x =>
          Raise (HTTPException 500 ("Error fetching summaries: " ++ exn_str x))
      end /\
    forall items,
      fst (get_summaries_by_patient e patient_id w) = Ok items ->
      Forall2 projects rows items.
Proof.
  intros e pid w Hf rows.
  pose proof (get_summaries_by_patient_run e pid w Hf) as Hrun. fold rows in Hrun.
  split; [apply Permutation_sort_desc|].
  split; [apply sort_desc_sorted|].
  split; [exact Hrun|].
  intros items Hi. rewrite Hrun in Hi.
  destruct (summary_list rows) as [l|] eqn:Hl; [|discriminate].
  injection Hi as <-. now apply summary_list_projects.
Qed.

(** The theorem at the patient with two of the three rows of
    [world_three]: the later one comes first. *)
Lemma by_patient_rows_witness :
  table_fault env0 = None /\
  fst (get_summaries_by_patient env0 "patient-001" world_three) =
    Ok [item_jan17; item_jan15].
Proof.
  destruct (by_patient_rows env0 "patient-001" world_three eq_refl)
    as (_ & _ & H & _).
  split; [reflexivity | exact H].
Defined.

(** X2: for a patient without rows [get_summaries_by_patient] answers with
    the empty list, not an error; it has asked the datastore once and
    changed nothing. *)
Theorem by_patient_without_rows :
  forall e patient_id w,
    table_fault e = None ->
    (forall r, In r (table w) -> r_patient_id r <> patient_id) ->
    get_summaries_by_patient e patient_id w =
    (Ok [], mkworld (table w) (bucket w) (TableSelect :: calls w)).
Proof.
  intros e pid w Hf Hnone. run_handler. rewrite Hf. cbn [fst snd table].
  unfold select. cbn [filters order_created_at_desc limit apply_filters
                      apply_filter].
  rewrite filter_none; [reflexivity|].
  intros r Hr. apply String.eqb_neq. now apply Hnone.
Qed.

(** The theorem at a patient [world_three] does not know. *)
Lemma by_patient_without_rows_witness :
  table_fault env0 = None /\
  get_summaries_by_patient env0 "patient-404" world_three =
    (Ok [], mkworld (table world_three) (bucket world_three)
              (TableSelect :: calls world_three)).
Proof.
  split; [reflexivity|].
  apply (by_patient_without_rows env0 "patient-404" world_three eq_refl).
  intros r [<-|[<-|[<-|[]]]]; discriminate.
Defined.

(** X3: while the datastore answers, [get_all_summaries] with limit [n]
    works on the first [n] rows of the table sorted latest first: [n] rows or
    the whole table if that is less, in that order, and no row left out is
    later than a row that is in; the answer is their list items, or status
    500 if a timestamp does not parse. *)
Theorem get_all_summaries_latest :
  forall e n w,
    table_fault e = None ->
    0 <= n ->
    let sorted := sort_desc (table w) in
    let rows := firstn (Z.to_nat n) sorted in
    fst (get_all_summaries e n w) =
      match summary_list rows with
      | Ok items => Ok items
      | Raise x =>
          Raise (HTTPException 500
                   ("Error fetching all summaries: " ++ exn_str x))
      end /\
    (forall items,
        fst (get_all_summaries e n w) = Ok items -> Forall2 projects rows items) /\
    length rows = Nat.min (Z.to_nat n) (length (table w)) /\
    (forall r, In r rows -> In r (table w)) /\
    StronglySorted newer_first rows /\
    (forall r r', In r rows -> In r' (skipn (Z.to_nat n) sorted) ->
                  sort_key r' <= sort_key r).
Proof.
  intros e n w Hf Hn sorted rows.
  assert (Hrun : fst (get_all_summaries e n w) =
      match summary_list rows with
      | Ok items => Ok items
      | Raise x =>
          Raise (HTTPException 500
                   ("Error fetching all summaries: " ++ exn_str x))
      end).
  { run_handler. rewrite Hf. cbn [fst snd table].
    unfold select. cbn [filters order_created_at_desc limit apply_filters].
    fold sorted. fold rows.
    destruct rows as [|x rows']; [reflexivity|].
    now destruct (summary_list (x :: rows')). }
  pose proof (sort_desc_sorted (table w)) as Hs. fold sorted in Hs.
  rewrite <- (firstn_skipn (Z.to_nat n) sorted) in Hs. fold rows in Hs.
  split; [exact Hrun|]. split; [|split; [|split; [|split]]].
  - intros items Hi. rewrite Hrun in Hi.
    destruct (summary_list rows) as [l|] eqn:Hl; [|discriminate].
    injection Hi as <-. now apply summary_list_projects.
  - unfold rows, sorted. rewrite length_firstn.
    now rewrite (Permutation_length (Permutation_sort_desc (table w))).
  - intros r Hr. apply (Permutation_in _ (Permutation_sort_desc (table w))).
    rewrite <- (firstn_skipn (Z.to_nat n) (sort_desc (table w))).
    apply in_or_app. now left.
  - exact (sorted_app_prefix _ _ _ Hs).
  - intros r r' Hr Hr'. exact (sorted_app_le _ _ _ Hs r r' Hr Hr').
Qed.

(** The theorem at limit 2 over the three rows of [world_three]: the two
    latest, the oldest left out. *)
Lemma get_all_summaries_latest_witness :
  table_fault env0 = None /\ 0 <= 2 /\
  fst (get_all_summaries env0 2 world_three) = Ok [item_jan17; item_jan16].
Proof.
  destruct (get_all_summaries_latest env0 2 world_three eq_refl)
    as (H & _); [lia|].
  split; [reflexivity|]. split; [lia | exact H].
Defined.

(** X4: when the datastore call fails, each of the four read handlers
    answers with status 500 and its own prefix followed by the message of the
    failure. *)
Theorem datastore_failure_is_500 :
  forall e msg w,
    table_fault e = Some msg ->
    (forall patient_id,
        fst (get_summaries_by_patient e patient_id w) =
        Raise (HTTPException 500 ("Error fetching summaries: " ++ msg))) /\
    (forall date d,
        PyTime.strptime_ymd date = Some d ->
        fst (get_summaries_by_date e date w) =
        Raise (HTTPException 500 ("Error fetching summaries by date: " ++ msg))) /\
    (forall n,
        fst (get_all_summaries e n w) =
        Raise (HTTPException 500 ("Error fetching all summaries: " ++ msg))) /\
    (forall summary_id,
        fst (get_summary_by_id e summary_id w) =
        Raise (HTTPException 500 ("Error fetching summary: " ++ msg))).
Proof.
  intros e msg w Hf. repeat split.
  - intros pid. run_handler. now rewrite Hf.
  - intros date d Hd. run_handler. now rewrite Hd, Hf.
  - intros n. run_handler. now rewrite Hf.
  - intros sid. run_handler. now rewrite Hf.
Qed.

(** The theorem at a datastore that refuses the connection. *)
Lemma datastore_failure_is_500_witness :
  table_fault env_table_down = Some "connection refused" /\
  fst (get_all_summaries env_table_down 100 world_three) =
    Raise (HTTPException 500
             "Error fetching all summaries: connection refused").
Proof.
  destruct (datastore_failure_is_500 env_table_down "connection refused"
              world_three eq_refl) as (_ & _ & H & _).
  split; [reflexivity | exact (H 100)].
Defined.

(** X5: the four read handlers never write: whatever they answer, the table
    and the bucket are as before. *)
Theorem read_handlers_store_nothing :
  forall e w,
    (forall patient_id,
        same_data w (snd (get_summaries_by_patient e patient_id w))) /\
    (forall date, same_data w (snd (get_summaries_by_date e date w))) /\
    (forall limit, same_data w (snd (route_get_all_summaries e limit w))) /\
    (forall summary_id,
        same_data w (snd (get_summary_by_id e summary_id w))).
Proof.
  intros e w. unfold same_data. run_handler. run_handler. unfold Query_limit.
  repeat split; intros;
    repeat (break_inner; cbn [fst snd table bucket] in *; try discriminate);
    repeat match goal with
           | H : (_, _) = (_, _) |- _ => injection H as <- <-
           end;
    reflexivity.
Qed.

(** [parse_supabase_datetime] raises [ValueError] only, and building a
    [SummaryResponse] that or a [ValidationError]. *)
Lemma parse_supabase_datetime_raise s x :
  parse_supabase_datetime s = Raise x -> exists m, x = ValueError m.
Proof.
  unfold parse_supabase_datetime.
  destruct (if PyStr.endswith _ _ then _ else _); [discriminate|].
  intros [= <-]. eauto.
Qed.

Lemma summary_response_raise r x :
  summary_response r = Raise x ->
  exists m, x = ValueError m \/ x = ValidationError m.
Proof.
  unfold summary_response.
  destruct (parse_supabase_datetime (r_created_at r)) as [t|y] eqn:Ht.
  - destruct (str_items _); [discriminate|]. intros [= <-]. eauto.
  - intros [= <-]. destruct (parse_supabase_datetime_raise _ _ Ht) as [m ->].
    eauto.
Qed.

(** The fields of an answer are those of the row. *)
Lemma summary_response_echo x a :
  summary_response x = Ok a ->
  patient_id a = r_patient_id x /\
  patient_name a = r_patient_name x /\
  summary_text a = r_summary_text x /\
  affected_system a = r_affected_system x /\
  affected_organ a = r_affected_organ x /\
  animation_asset a = r_animation_asset x.
Proof.
  unfold summary_response. intros H.
  destruct (parse_supabase_datetime (r_created_at x)) as [t|]; [|discriminate].
  destruct (str_items _) as [ds|]; [|discriminate].
  injection H as <-. cbn. repeat split; reflexivity.
Qed.

(** X6: one row of the patient whose [created_at] does not parse fails the
    whole list: [get_summaries_by_patient] answers with status 500, not with
    the rows that are in order. *)
Theorem one_bad_timestamp_fails_the_list :
  forall e patient_id w r x,
    table_fault e = None ->
    In r (table w) ->
    r_patient_id r = patient_id ->
    parse_supabase_datetime (r_created_at r) = Raise x ->
    exists msg,
      fst (get_summaries_by_patient e patient_id w) =
      Raise (HTTPException 500 ("Error fetching summaries: " ++ msg)).
Proof.
  intros e pid w r x Hf Hin Hpid Hx.
  rewrite (get_summaries_by_patient_run e pid w Hf).
  pose proof (Permutation_sort_desc (filter (of_patient pid) (table w)))
    as Hperm.
  destruct (summary_list _) as [items|y] eqn:Hl; [|eauto].
  exfalso.
  destruct (summary_list_all_parse _ _ Hl r) as [t Ht].
  - apply (Permutation_in _ (Permutation_sym Hperm)).
    apply filter_In. split; [exact Hin|]. unfold of_patient.
    now apply String.eqb_eq.
  - rewrite Hx in Ht. discriminate.
Qed.

(** The theorem at a patient with a regular row and one created at
    [infinity]. *)
Lemma one_bad_timestamp_fails_the_list_witness :
  table_fault env0 = None /\
  In row_infinity (table world_infinity) /\
  parse_supabase_datetime (r_created_at row_infinity) =
    Raise (ValueError "Invalid isoformat string: infinity") /\
  exists msg,
    fst (get_summaries_by_patient env0 "patient-001" world_infinity) =
    Raise (HTTPException 500 ("Error fetching summaries: " ++ msg)).
Proof.
  split; [reflexivity|]. split; [right; left; reflexivity|].
  split; [reflexivity|].
  apply (one_bad_timestamp_fails_the_list env0 "patient-001" world_infinity
           row_infinity (ValueError "Invalid isoformat string: infinity")
           eq_refl);
    [right; left; reflexivity | reflexivity | reflexivity].
Defined.

(** ** [get_summary_by_id] on a row that is there *)

(** X7: when exactly one row has the key, [get_summary_by_id] answers with
    that row: the key asked for, every column as stored, and an empty
    [diagnoses] if the column holds anything but an array; if the answer
    cannot be built it is status 500. *)
Theorem get_summary_by_id_one_row :
  forall e summary_id w r,
    table_fault e = None ->
    filter (with_id summary_id) (table w) = [r] ->
    fst (get_summary_by_id e summary_id w) =
      match summary_response r with
      | Ok a => Ok a
      | Raise x =>
          Raise (HTTPException 500 ("Error fetching summary: " ++ exn_str x))
      end /\
    forall a,
      fst (get_summary_by_id e summary_id w) = Ok a ->
      Main.summary_id a = summary_id /\
      patient_id a = r_patient_id r /\
      patient_name a = r_patient_name r /\
      summary_text a = r_summary_text r /\
      affected_system a = r_affected_system r /\
      affected_organ a = r_affected_organ r /\
      animation_asset a = r_animation_asset r /\
      raw_notes_type a = r_raw_notes_type r /\
      raw_notes_text a = r_raw_notes_text r /\
      raw_notes_file_url a = r_raw_notes_file_url r /\
      (Json.is_list (r_diagnoses r) = false -> diagnoses a = []).
Proof.
  intros e id w r Hf Hr.
  assert (Hrun : fst (get_summary_by_id e id w) =
      match summary_response r with
      | Ok a => Ok a
      | Raise x =>
          Raise (HTTPException 500 ("Error fetching summary: " ++ exn_str x))
      end).
  { run_handler. rewrite Hf. cbn [fst snd table].
    unfold select. cbn [filters order_created_at_desc limit apply_filters
                        apply_filter].
    fold (with_id id). rewrite Hr. cbn [fst snd].
    destruct (summary_response r) as [a|x] eqn:Hresp; [reflexivity|].
    destruct (summary_response_raise _ _ Hresp) as [m [-> | ->]]; reflexivity. }
  split; [exact Hrun|].
  intros a Ha. rewrite Hrun in Ha.
  destruct (summary_response r) as [a'|] eqn:Hresp; [|discriminate].
  injection Ha as ->.
  destruct (summary_response_echo _ _ Hresp) as (H1 & H2 & H3 & H4 & H5 & H6).
  destruct (summary_response_fields _ _ Hresp) as (H7 & H8 & H9 & H10 & H11 & _).
  assert (Hid : r_summary_id r = id).
  { assert (Hin : In r (filter (with_id id) (table w))) by (rewrite Hr; now left).
    apply filter_In in Hin as [_ Hin]. now apply String.eqb_eq in Hin. }
  rewrite H7, Hid. repeat split; try assumption.
  intros Hl. destruct (r_diagnoses r); try discriminate Hl;
    cbn in H11; now injection H11 as <-.
Qed.

(** The theorem at the second row of [world_three]. *)
Lemma get_summary_by_id_one_row_witness :
  table_fault env0 = None /\
  filter (with_id "s-2") (table world_three) = [row_jan16] /\
  fst (get_summary_by_id env0 "s-2" world_three) = Ok resp_jan16.
Proof.
  destruct (get_summary_by_id_one_row env0 "s-2" world_three row_jan16
              eq_refl eq_refl) as (H & _).
  split; [reflexivity|]. split; [reflexivity | exact H].
Defined.

(** ** [get_summaries_by_date]: the date *)



(** ** [create_summary]: when it succeeds, and what it leaves behind *)

Lemma endswith_split s suf :
  PyStr.endswith s suf = true -> exists p, s = p ++ suf.
Proof.
  induction s as [|c s IH]; cbn [PyStr.endswith]; intros H.
  - rewrite orb_false_r in H. apply String.eqb_eq in H. subst.
    now exists EmptyString.
  - apply orb_true_iff in H as [H|H].
    + apply String.eqb_eq in H. rewrite H. now exists EmptyString.
    + destruct (IH H) as [p ->]. now exists (String c p).
Qed.

Lemma basename_no_slash t :
  PyStr.contains "/"%char t = false -> basename t = t.
Proof.
  destruct t as [|c r]; [reflexivity|]. cbn [PyStr.contains basename].
  intros H. apply orb_false_iff in H as [Hc Hr]. rewrite Hr.
  rewrite Ascii.eqb_sym in Hc. now rewrite Hc.
Qed.

Lemma basename_app p t :
  PyStr.contains "/"%char t = false ->
  exists q, basename (p ++ t) = q ++ t.
Proof.
  intros Ht. induction p as [|c p IH].
  - exists EmptyString. now apply basename_no_slash.
  - cbn [append basename].
    destruct (PyStr.contains "/"%char (p ++ t)); [exact IH|].
    destruct (Ascii.eqb c "/"%char).
    + now exists p.
    + now exists (String c p).
Qed.

Lemma from_last_dot_pdf a : from_last_dot (a ++ ".pdf") = Some ".pdf".
Proof.
  induction a as [|c a IH]; [reflexivity|].
  cbn [append from_last_dot]. now rewrite IH.
Qed.

(** The extension [upload_pdf_to_supabase] takes from a name that ends in
    [.pdf] is [.pdf]. *)
Lemma pdf_extension name :
  PyStr.endswith name ".pdf" = true ->
  (if PyStr.truthy (suffix name) then suffix name else ".pdf") = ".pdf".
Proof.
  intros H. destruct (endswith_split _ _ H) as [p ->].
  unfold suffix. destruct (basename_app p ".pdf" eq_refl) as [q ->].
  destruct q as [|c q]; [reflexivity|].
  cbn [append]. now rewrite from_last_dot_pdf.
Qed.

Lemma create_summary_ok_inv e f w a w' :
  create_summary e f w = (Ok a, w') ->
  first_failure f = None /\ collaborators_ok e f w /\
  summary_response (row_of_form e f) = Ok a /\
  w' = world_after_create e f w.
Proof.
  intros H. run_handler.
  unfold first_failure, collaborators_ok, world_after_create, row_of_form,
    form_items, form_url, inserted_row, decoded_diagnoses, blank, storage_key.
  repeat (break_inner_in H;
          cbn [negb orb andb fst snd table bucket calls] in *;
          try discriminate).
  all: injection H as <- <-.
  all: try match goal with
           | Hj : negb (Json.is_list ?j) = false |- _ =>
               destruct j; try discriminate Hj
           end.
  all: cbn [negb Json.is_list].
  all: repeat split; try reflexivity; try assumption.
Qed.




(** X10: a successful [create_summary] answers with the fields as they were
    sent, white space included (the required fields are checked stripped but
    stored unstripped), with the key the datastore generated and its
    timestamp parsed. *)
Theorem create_summary_returns_what_was_sent :
  forall e f w a w',
    create_summary e f w = (Ok a, w') ->
    patient_id a = Form.patient_id f /\
    patient_name a = Form.patient_name f /\
    summary_text a = Form.summary_text f /\
    affected_system a = Form.affected_system f /\
    affected_organ a = Form.affected_organ f /\
    animation_asset a = Form.animation_asset f /\
    raw_notes_text a = Form.raw_notes_text f /\
    summary_id a = generated_id e /\
    parse_supabase_datetime (now e) = Ok (created_at a).
Proof.
  intros e f w a w' H.
  destruct (create_summary_effect _ _ _ _ _ H) as [[_ Hno] | Hrow].
  - now destruct (Hno a).
  - destruct Hrow as (items & url & _ & _ & _ & _ & _ & Hresp).
    specialize (Hresp a eq_refl).
    destruct (summary_response_echo _ _ Hresp) as (H1 & H2 & H3 & H4 & H5 & H6).
    destruct (summary_response_fields _ _ Hresp) as (H7 & _ & H8 & _ & _ & H9).
    cbn in *. repeat split; assumption.
Qed.

(** The theorem at [form_padded]: the blanks come back. *)
Lemma create_summary_returns_what_was_sent_witness :
  create_summary env0 form_padded world0 = (Ok resp_padded, world_padded) /\
  patient_id resp_padded = "  patient-001 " /\
  summary_id resp_padded = generated_id env0.
Proof.
  assert (H : create_summary env0 form_padded world0 =
              (Ok resp_padded, world_padded)) by (vm_compute; reflexivity).
  destruct (create_summary_returns_what_was_sent env0 form_padded world0
              resp_padded world_padded H)
    as (H1 & _ & _ & _ & _ & _ & _ & H8 & _).
  split; [exact H|]. split; [exact H1 | exact H8].
Defined.

Lemma first_failure_pdf f file :
  first_failure f = None -> Form.raw_notes_file f = Some file ->
  PyStr.endswith (filename file) ".pdf" = true.
Proof.
  unfold first_failure. intros H Hfile. rewrite Hfile in H.
  repeat (break_inner_in H; try discriminate).
  now apply negb_false_iff.
Qed.

Lemma storage_key_pdf e f file :
  first_failure f = None -> Form.raw_notes_file f = Some file ->
  storage_key e f file = pdf_key e f.
Proof.
  intros H Hfile. unfold storage_key, pdf_key.
  now rewrite (pdf_extension _ (first_failure_pdf _ _ H Hfile)).
Qed.

(** X11: when [create_summary] succeeds with a file, the file is stored
    under [<patient_id>/<uuid4>.pdf], a key the bucket did not hold, the
    answer has type [pdf], and its URL is the public URL of that key in the
    configured bucket. *)
Theorem create_summary_stores_pdf :
  forall e f w a w' file,
    Form.raw_notes_file f = Some file ->
    create_summary e f w = (Ok a, w') ->
    has_key (pdf_key e f) (bucket w) = false /\
    bucket w' = (pdf_key e f, content file) :: bucket w /\
    raw_notes_type a = "pdf" /\
    raw_notes_file_url a =
      Some (SUPABASE_URL e ++ "/storage/v1/object/public/" ++
            SUPABASE_STORAGE_BUCKET e ++ "/" ++ pdf_key e f).
Proof.
  intros e f w a w' file Hfile H.
  destruct (create_summary_ok_inv _ _ _ _ _ H) as (Hok & Hc & Hresp & ->).
  pose proof (storage_key_pdf e f file Hok Hfile) as Hkey.
  destruct Hc as (_ & _ & _ & Hc). rewrite Hfile in Hc. destruct Hc as [_ Hc].
  rewrite Hkey in Hc.
  destruct (summary_response_fields _ _ Hresp) as (_ & Ht & _ & Hu & _).
  rewrite Ht, Hu.
  unfold world_after_create, row_of_form, form_url, inserted_row,
    get_public_url, determine_notes_type.
  rewrite Hfile, Hkey. cbn. auto.
Qed.

(** The theorem at [form_pdf]. *)
Lemma create_summary_stores_pdf_witness :
  Form.raw_notes_file form_pdf = Some notes_pdf /\
  create_summary env0 form_pdf world0 = (Ok resp_pdf, world_pdf) /\
  bucket world_pdf =
    [("patient-002/0b6f7c1e-5d2a-4c57-9a3e-2f4f0c1d8e11.pdf", "%PDF-1.4")].
Proof.
  assert (H : create_summary env0 form_pdf world0 = (Ok resp_pdf, world_pdf))
    by (vm_compute; reflexivity).
  destruct (create_summary_stores_pdf env0 form_pdf world0 resp_pdf world_pdf
              notes_pdf eq_refl H) as (_ & Hb & _).
  split; [reflexivity|]. split; [exact H | exact Hb].
Defined.

(** X12: when the upload fails, [create_summary] answers with status 500,
    [Failed to upload PDF:] and the message of the failure; nothing is
    stored and the datastore is not called. *)
Theorem create_summary_upload_failure :
  forall e f w file msg,
    first_failure f = None ->
    Form.raw_notes_file f = Some file ->
    storage_fault e = Some msg ->
    create_summary e f w =
    (Raise (HTTPException 500 ("Failed to upload PDF: " ++ msg)),
     mkworld (table w) (bucket w) (StorageUpload (pdf_key e f) :: calls w)).
Proof.
  intros e f w file msg Hok Hfile Hs.
  rewrite <- (storage_key_pdf e f file Hok Hfile).
  unfold first_failure, decoded_diagnoses, blank, storage_key in *. run_handler.
  rewrite Hfile in *. rewrite Hs.
  repeat (break_inner_in Hok; cbn [negb orb andb fst snd] in *;
          try discriminate); reflexivity.
Qed.

(** The theorem at [form_pdf] with the storage service down. *)
Lemma create_summary_upload_failure_witness :
  first_failure form_pdf = None /\
  Form.raw_notes_file form_pdf = Some notes_pdf /\
  storage_fault env_storage_down = Some "Bucket not found" /\
  create_summary env_storage_down form_pdf world0 =
    (Raise (HTTPException 500 "Failed to upload PDF: Bucket not found"),
     mkworld [] [] [StorageUpload (pdf_key env_storage_down form_pdf)]).
Proof.
  split; [reflexivity|]. split; [reflexivity|]. split; [reflexivity|].
  exact (create_summary_upload_failure env_storage_down form_pdf world0
           notes_pdf "Bucket not found" eq_refl eq_refl eq_refl).
Defined.

(** X13: when the insert fails, [create_summary] answers with status 500,
    [Error creating summary:] and the message; the table is unchanged, and
    a file that was uploaded before stays in the bucket: nothing removes
    it. *)
Theorem create_summary_insert_failure :
  forall e f w msg,
    first_failure f = None ->
    table_fault e = Some msg ->
    match Form.raw_notes_file f with
    | None =>
        create_summary e f w =
        (Raise (HTTPException 500 ("Error creating summary: " ++ msg)),
         mkworld (table w) (bucket w) (TableInsert :: calls w))
    | Some file =>
        storage_fault e = None ->
        has_key (pdf_key e f) (bucket w) = false ->
        create_summary e f w =
        (Raise (HTTPException 500 ("Error creating summary: " ++ msg)),
         mkworld (table w) ((pdf_key e f, content file) :: bucket w)
           (TableInsert :: StorageUpload (pdf_key e f) :: calls w))
    end.
Proof.
  intros e f w msg Hok Hf.
  destruct (Form.raw_notes_file f) as [file|] eqn:Hfile.
  - rewrite <- (storage_key_pdf e f file Hok Hfile). intros Hs Hk.
    unfold first_failure, decoded_diagnoses, blank, storage_key in *.
    run_handler. rewrite Hfile in *. rewrite Hs, Hf.
    repeat (break_inner_in Hok; cbn [negb orb andb fst snd] in *;
            try discriminate).
    all: cbn [bucket]; rewrite Hk; reflexivity.
  - unfold first_failure, decoded_diagnoses, blank in Hok. run_handler.
    rewrite Hfile in *. rewrite Hf.
    repeat (break_inner_in Hok; cbn [negb orb andb fst snd] in *;
            try discriminate); reflexivity.
Qed.

(** The theorem at [form_pdf] with the datastore down: the file is left
    behind. *)
Lemma create_summary_insert_failure_witness :
  first_failure form_pdf = None /\
  table_fault env_table_down = Some "connection refused" /\
  create_summary env_table_down form_pdf world0 =
    (Raise (HTTPException 500 "Error creating summary: connection refused"),
     mkworld []
       [(pdf_key env_table_down form_pdf, content notes_pdf)]
       [TableInsert; StorageUpload (pdf_key env_table_down form_pdf)]).
Proof.
  split; [reflexivity|]. split; [reflexivity|].
  exact (create_summary_insert_failure env_table_down form_pdf world0
           "connection refused" eq_refl eq_refl eq_refl eq_refl).
Defined.

(** X14: a failure after the insert does not undo it: if the insert returns
    no row, or the answer cannot be built from the stored row, the answer is
    status 500 and the row (and the file) are stored all the same. *)
Theorem create_summary_stored_then_500 :
  forall e f w,
    first_failure f = None ->
    table_fault e = None ->
    has_id (generated_id e) (table w) = false ->
    match Form.raw_notes_file f with
    | Some file =>
        storage_fault e = None /\
        has_key (storage_key e f file) (bucket w) = false
    | None => True
    end ->
    (returning e = false ->
     create_summary e f w =
     (Raise (HTTPException 500 "Failed to create summary in database"),
      world_after_create e f w)) /\
    (forall x,
        returning e = true ->
        summary_response (row_of_form e f) = Raise x ->
        create_summary e f w =
        (Raise (HTTPException 500 ("Error creating summary: " ++ exn_str x)),
         world_after_create e f w)).
Proof.
  unfold first_failure, world_after_create, row_of_form,
    form_items, form_url, inserted_row, decoded_diagnoses, blank, storage_key.
  intros e f w Hok Htf Hid Hfile.
  split; [intros Hret | intros x Hret Hresp]; run_handler; rewrite Htf, Hret.
  all: repeat (break_inner_in Hok; cbn [negb orb andb fst snd] in *;
               try discriminate).
  all: try match goal with
           | Hj : negb (Json.is_list ?j) = false |- _ =>
               destruct j; try discriminate Hj
           end.
  all: try match type of Hfile with
           | _ /\ _ => destruct Hfile as [Hsf Hkey]; rewrite Hsf
           end.
  all: cbn [fst snd table bucket calls].
  all: try rewrite Hkey.
  all: cbn [fst snd table bucket calls].
  all: rewrite Hid; cbn [fst snd table bucket calls].
  all: try reflexivity.
  all: rewrite Hresp.
  all: pose proof Hresp as Hx; unfold summary_response in Hx.
  all: repeat (break_inner_in Hx; try discriminate).
  all: injection Hx as <-; try reflexivity.
  all: match goal with
       | H : parse_supabase_datetime _ = Raise _ |- _ =>
           unfold parse_supabase_datetime in H;
           repeat (break_inner_in H; try discriminate);
           injection H as <-; reflexivity
       end.
Qed.

(** The theorem at an insert that returns nothing, and at an array of
    numbers: status 500, and the table has the row. *)
Lemma create_summary_stored_then_500_witness :
  first_failure form_numbers = None /\
  create_summary env_no_return form_numbers world0 =
    (Raise (HTTPException 500 "Failed to create summary in database"),
     world_after_create env_no_return form_numbers world0) /\
  http_status 201 (fst (create_summary env0 form_numbers world0)) = 500 /\
  table (snd (create_summary env0 form_numbers world0)) =
    [row_of_form env0 form_numbers].
Proof.
  split; [reflexivity|].
  split.
  - exact (proj1 (create_summary_stored_then_500 env_no_return form_numbers
                    world0 eq_refl eq_refl eq_refl I) eq_refl).
  - rewrite (proj2 (create_summary_stored_then_500 env0 form_numbers world0
                      eq_refl eq_refl eq_refl I)
               (ValidationError "1 validation error for SummaryResponse")
               eq_refl eq_refl).
    split; reflexivity.
Defined.

(** X15: when the handler [create_summary] fails, it is with status 400 or
    500, nothing else; and a 400 has touched neither collaborator. *)
Theorem create_summary_failures :
  forall e f w x w',
    create_summary e f w = (Raise x, w') ->
    exists d,
      (x = HTTPException 400 d /\ w' = w) \/ x = HTTPException 500 d.
Proof.
  intros e f w x w' H. run_handler.
  repeat (break_inner_in H; cbn [negb orb andb fst snd] in *;
          try discriminate).
  all: try match goal with
           | Hr : summary_response _ = Raise _ |- _ =>
               destruct (summary_response_raise _ _ Hr) as [m [Hm|Hm]];
               discriminate Hm
           end.
  all: injection H as <- <-; eauto.
Qed.

(** The theorem at [form_both]. *)
Lemma create_summary_failures_witness :
  create_summary env0 form_both world0 =
    (Raise (HTTPException 400
              "Cannot provide both raw_notes_text and raw_notes_file. Choose one."),
     world0) /\
  exists d,
    (HTTPException 400
       "Cannot provide both raw_notes_text and raw_notes_file. Choose one."
     = HTTPException 400 d /\ world0 = world0) \/
    HTTPException 400
      "Cannot provide both raw_notes_text and raw_notes_file. Choose one."
    = HTTPException 500 d.
Proof.
  split; [reflexivity|].
  exact (create_summary_failures env0 form_both world0 _ world0 eq_refl).
Defined.

(** ** [parse_supabase_datetime]: the suffix [Z] *)

Lemma endswith_app s suf : PyStr.endswith (s ++ suf) suf = true.
Proof.
  induction s as [|c s IH].
  - destruct suf; cbn [append PyStr.endswith]; now rewrite String.eqb_refl.
  - cbn [append PyStr.endswith]. rewrite IH. apply orb_true_r.
Qed.

Lemma replace_Z_app s :
  PyStr.contains "Z"%char s = false ->
  PyStr.replace "Z"%char "+00:00" (s ++ "Z") = s ++ "+00:00".
Proof.
  induction s as [|c s IH]; [reflexivity|].
  cbn [PyStr.contains append PyStr.replace]. intros H.
  apply orb_false_iff in H as [Hc Hs]. rewrite Hc. now rewrite IH.
Qed.

Lemma endswith_offset_Z s : PyStr.endswith (s ++ "+00:00") "Z" = false.
Proof.
  induction s as [|c s IH]; [reflexivity|].
  cbn [append PyStr.endswith]. rewrite IH, orb_false_r.
  cbn [String.eqb]. destruct (Ascii.eqb c "Z"); [|reflexivity].
  now destruct s.
Qed.

(** X16: a trailing [Z] means UTC: a text with no other [Z] is parsed with
    [Z] at its end to the same value as with [+00:00] at its end, and
    accepted with the one exactly when it is with the other. *)
Theorem parse_supabase_datetime_Z_is_utc :
  forall s t,
    PyStr.contains "Z"%char s = false ->
    (parse_supabase_datetime (s ++ "Z") = Ok t <->
     parse_supabase_datetime (s ++ "+00:00") = Ok t).
Proof.
  intros s t Hs. unfold parse_supabase_datetime.
  rewrite endswith_app, (replace_Z_app _ Hs), endswith_offset_Z.
  rewrite contains_app. cbn [PyStr.contains Ascii.eqb Bool.eqb orb].
  rewrite orb_true_r. cbn [orb].
  destruct (PyTime.fromisoformat (s ++ "+00:00")); split; intros H;
    try discriminate; exact H.
Qed.

(** The theorem at [2024-01-15T10:30:00]. *)
Lemma parse_supabase_datetime_Z_is_utc_witness :
  PyStr.contains "Z"%char created_no_zone = false /\
  parse_supabase_datetime (created_no_zone ++ "Z") = Ok created_no_zone_parsed.
Proof.
  split; [reflexivity|].
  exact (proj2 (parse_supabase_datetime_Z_is_utc created_no_zone
                  created_no_zone_parsed eq_refl) eq_refl).
Defined.

(** * The configuration: [main.py] at import, and [check_env.py] *)

Lemma lstrip_all_space s : all_space s = true -> PyStr.lstrip s = EmptyString.
Proof.
  induction s as [|c s IH]; [reflexivity|]. cbn [all_space PyStr.lstrip].
  intros H. apply andb_true_iff in H as [-> H]. now apply IH.
Qed.

Lemma strip_all_space s : all_space s = true -> PyStr.strip s = EmptyString.
Proof. intros H. unfold PyStr.strip. now rewrite lstrip_all_space. Qed.

Lemma is_graph_not_space c : is_graph c = true -> PyStr.isspace c = false.
Proof.
  unfold is_graph, PyStr.isspace. cbv zeta. intros H.
  apply andb_true_iff in H as [H1 H2].
  apply Z.leb_le in H1. apply Z.leb_le in H2.
  apply orb_false_iff. split; apply andb_false_iff; right; apply Z.leb_gt; lia.
Qed.

Lemma rstrip_has_graph s :
  has_graph s = true -> has_graph (PyStr.rstrip s) = true.
Proof.
  induction s as [|c s IH]; [discriminate|].
  cbn [has_graph PyStr.rstrip]. intros H.
  destruct (has_graph s) eqn:Hs.
  - specialize (IH eq_refl).
    destruct (PyStr.rstrip s) as [|d r]; [discriminate|].
    cbn [has_graph]. cbn [has_graph] in IH. rewrite IH. apply orb_true_r.
  - rewrite orb_false_r in H.
    destruct (PyStr.rstrip s) as [|d r].
    + rewrite (is_graph_not_space _ H). cbn [has_graph]. now rewrite H.
    + cbn [has_graph]. now rewrite H.
Qed.

Lemma lstrip_has_graph s :
  has_graph s = true -> has_graph (PyStr.lstrip s) = true.
Proof.
  induction s as [|c s IH]; [discriminate|].
  cbn [has_graph PyStr.lstrip]. intros H.
  destruct (PyStr.isspace c) eqn:Hc; [|exact H].
  apply IH. destruct (is_graph c) eqn:Hg; [|exact H].
  rewrite (is_graph_not_space _ Hg) in Hc. discriminate.
Qed.

Lemma strip_has_graph s :
  has_graph s = true -> PyStr.truthy (PyStr.strip s) = true.
Proof.
  intros H. unfold PyStr.strip.
  pose proof (rstrip_has_graph _ (lstrip_has_graph _ H)) as H'.
  now destruct (PyStr.rstrip _).
Qed.

Lemma getenv_lookup environ key default :
  Startup.getenv environ key default =
  match lookup environ key with Some v => v | None => default end.
Proof. unfold Startup.getenv, lookup. now destruct (find _ _). Qed.

Lemma read_unset_or_blank environ key :
  unset_or_blank environ key = true ->
  PyStr.strip (Startup.getenv environ key EmptyString) = EmptyString.
Proof.
  unfold unset_or_blank. rewrite getenv_lookup.
  destruct (lookup environ key); [apply strip_all_space | reflexivity].
Qed.

Lemma read_visible environ key default :
  visible environ key = true ->
  PyStr.truthy (PyStr.strip (Startup.getenv environ key default)) = true.
Proof.
  unfold visible. rewrite getenv_lookup.
  destruct (lookup environ key); [apply strip_has_graph | discriminate].
Qed.

(** X17: [main.py] does not start without a URL and a key: if
    [SUPABASE_URL] or [SUPABASE_KEY] is unset or holds white space only,
    importing the module raises [ValueError] with a message that names the
    variable, and [check_env.py] reports that variables are missing; if both
    hold a visible character, none is missing, [check_env.py] reports all
    set, and the module starts unless [create_client] fails. *)
Theorem startup_requires_url_and_key :
  forall Client (create_client : string -> string -> result Client) environ fs,
    (forall key,
        key = "SUPABASE_URL" \/ key = "SUPABASE_KEY" ->
        unset_or_blank environ key = true ->
        In key (Startup.missing_vars environ) /\
        Startup.module_level create_client environ fs =
          Raise (ValueError (Startup.error_msg environ fs)) /\
        CheckEnv.all_set environ = false) /\
    (visible environ "SUPABASE_URL" = true ->
     visible environ "SUPABASE_KEY" = true ->
     Startup.missing_vars environ = [] /\
     CheckEnv.all_set environ = true /\
     Startup.module_level create_client environ fs =
       match create_client (Startup.SUPABASE_URL environ)
                           (Startup.SUPABASE_KEY environ) with
       | Ok client =>
           Ok (Startup.mkglobals (Startup.SUPABASE_URL environ)
                 (Startup.SUPABASE_KEY environ)
                 (Startup.SUPABASE_STORAGE_BUCKET environ) client)
       | Raise e =>
           Raise (ValueError
                    ("Failed to initialize Supabase client: " ++ exn_str e ++
                     Startup.nl ++
                     "Please verify your SUPABASE_URL and SUPABASE_KEY in the .env file."))
       end).
Proof.
  intros Client cc environ fs. split.
  - intros key Hkey H. unfold Startup.module_level, CheckEnv.all_set,
      Startup.missing_vars, Startup.SUPABASE_URL, Startup.SUPABASE_KEY.
    destruct Hkey as [-> | ->]; rewrite (read_unset_or_blank _ _ H);
      cbn [PyStr.truthy negb orb andb].
    + repeat split. now left.
    + rewrite orb_true_r, andb_false_r. repeat split.
      apply in_or_app. right. now left.
  - intros Hu Hk. unfold Startup.module_level, CheckEnv.all_set,
      Startup.missing_vars, Startup.SUPABASE_URL, Startup.SUPABASE_KEY.
    rewrite (read_visible _ _ EmptyString Hu), (read_visible _ _ EmptyString Hk).
    cbn [negb orb andb app]. auto.
Qed.

(** The theorem at a key of three blanks. *)
Lemma startup_requires_url_and_key_witness :
  unset_or_blank environ_blank_key "SUPABASE_KEY" = true /\
  Startup.missing_vars environ_blank_key = ["SUPABASE_KEY"] /\
  Startup.module_level any_client environ_blank_key no_files =
    Raise (ValueError (Startup.error_msg environ_blank_key no_files)) /\
  CheckEnv.all_set environ_blank_key = false.
Proof.
  destruct (proj1 (startup_requires_url_and_key unit any_client
                     environ_blank_key no_files)
              "SUPABASE_KEY" (or_intror eq_refl) eq_refl) as (_ & H2 & H3).
  split; [reflexivity|]. split; [reflexivity|]. split; [exact H2 | exact H3].
Defined.

(** X18: once the module has started, the bucket is [clinical-notes] only
    if [SUPABASE_STORAGE_BUCKET] is unset; a value that is set is taken
    stripped, and one of white space only gives the empty bucket name, with
    no fall back to the default. *)
Theorem storage_bucket_default :
  forall Client (create_client : string -> string -> result Client) environ fs g,
    Startup.module_level create_client environ fs = Ok g ->
    match lookup environ "SUPABASE_STORAGE_BUCKET" with
    | None => Startup.g_SUPABASE_STORAGE_BUCKET g = "clinical-notes"
    | Some v =>
        Startup.g_SUPABASE_STORAGE_BUCKET g = PyStr.strip v /\
        (all_space v = true ->
         Startup.g_SUPABASE_STORAGE_BUCKET g = EmptyString)
    end.
Proof.
  intros Client cc environ fs g. unfold Startup.module_level.
  destruct (negb _ || negb _); [discriminate|].
  destruct (cc _ _) as [client|]; [|discriminate].
  intros [= <-]. cbn [Startup.g_SUPABASE_STORAGE_BUCKET].
  unfold Startup.SUPABASE_STORAGE_BUCKET. rewrite getenv_lookup.
  destruct (lookup environ "SUPABASE_STORAGE_BUCKET") as [v|]; [|reflexivity].
  split; [reflexivity|]. apply strip_all_space.
Qed.

(** The theorem at a bucket of two blanks. *)
Lemma storage_bucket_default_witness :
  Startup.module_level any_client environ_blank_bucket no_files =
    Ok (Startup.mkglobals "https://medora.supabase.co" "eyJhbGciOi"
          EmptyString tt) /\
  Startup.g_SUPABASE_STORAGE_BUCKET
    (Startup.mkglobals "https://medora.supabase.co" "eyJhbGciOi"
       EmptyString tt) = EmptyString.
Proof.
  assert (H : Startup.module_level any_client environ_blank_bucket no_files =
              Ok (Startup.mkglobals "https://medora.supabase.co" "eyJhbGciOi"
                    EmptyString tt)) by reflexivity.
  split; [exact H|].
  exact (proj2 (storage_bucket_default unit any_client environ_blank_bucket
                  no_files _ H) eq_refl).
Defined.

(** * The routes *)






